(** * floatovoltaic_eval: the ciel-et-terre scraping script

    A shallow embedding of [ciel_et_terre_scraping.py] and the properties of
    its cache decision, its field extraction and its type coercions.  The
    repository keeps two copies of the script, one at the top and one under
    [ciel_et_terre/]; what they share is embedded once, what differs is in
    the modules [V1] and [V2].

    - Python strings are sequences of Unicode code points, so a [text] is
      a list of code points.  The two Unicode tables the script reaches
      through [re] (the [\d] and [\w] classes), [int] and [float] are an
      interface, [UnicodeDB]; every result holds for every table.
    - Exceptions are values: a computation returns [Ret] or [Raise].
    - The globals [df] and [last_downloaded], the local files and the
      requests sent to the server are the state of a run, threaded through
      a state and exception monad that keeps the state when something
      raises.
    - lxml, the web server and the clock are interfaces ([Lxml],
      [Outside]).  The server answers every request; files live in a map
      from paths to contents. *)

From Stdlib Require Import List NArith ZArith Bool Lia String Ascii QArith Qabs.
Import ListNotations.

Set Implicit Arguments.

(** ** Text *)

Definition char := N.
Definition text := list char.

Definition text_eqb (a b : text) : bool :=
  if list_eq_dec N.eq_dec a b then true else false.

(** A Rocq string literal read as text (ASCII code points). *)
Definition s (x : string) : text :=
  List.map N_of_ascii (list_ascii_of_string x).
Arguments s x%_string.

Definition nl : text := [10%N].

Open Scope N_scope.

Definition between (lo hi c : char) : bool := (lo <=? c) && (c <=? hi).

(** [str.isspace] for one code point; [\s] of [re] is the same set. *)
Definition is_space (c : char) : bool :=
  between 9 13 c || between 28 32 c || (c =? 133) || (c =? 160)
  || (c =? 5760) || between 8192 8202 c || (c =? 8232) || (c =? 8233)
  || (c =? 8239) || (c =? 8287) || (c =? 12288).

(** The Unicode database, outside ASCII: the decimal value of a code point
    of category Nd, and [str.isalnum]. *)
Class UnicodeDB := {
  uni_decimal : char -> option N;
  uni_alnum : char -> bool
}.

(** The database that knows no digit and no letter outside ASCII. *)
Definition ascii_only : UnicodeDB :=
  {| uni_decimal := fun _ => None; uni_alnum := fun _ => false |}.

Section Classes.
Context `{UnicodeDB}.

Definition digit_value (c : char) : option N :=
  if c <? 128 then (if between 48 57 c then Some (c - 48) else None)
  else uni_decimal c.

(** [\d] *)
Definition is_digit (c : char) : bool :=
  match digit_value c with Some _ => true | None => false end.

(** [\w] *)
Definition is_word (c : char) : bool :=
  if c <? 128
  then between 48 57 c || between 65 90 c || between 97 122 c || (c =? 95)
  else uni_alnum c.

End Classes.

Close Scope N_scope.

(** ** Exceptions *)

Inductive exn :=
| IndexError | ValueError | TypeError | KeyError | AttributeError
| FileNotFoundError | OSError | ParserError | OverflowError.

Inductive exc (A : Type) :=
| Ret (a : A)
| Raise (e : exn).
Arguments Ret {A} a.
Arguments Raise {A} e.

Definition bind {A B} (m : exc A) (f : A -> exc B) : exc B :=
  match m with
  | Ret a => f a
  | Raise e => Raise e
  end.

Declare Scope exc_scope.
Delimit Scope exc_scope with exc.
Notation "x <- m ;; k" := (bind m (fun x => k))
  (at level 61, m at next level, right associativity) : exc_scope.
Notation "m ;;; k" := (bind m (fun _ => k))
  (at level 61, right associativity) : exc_scope.

Definition exn_eqb (a b : exn) : bool :=
  match a, b with
  | IndexError, IndexError | ValueError, ValueError | TypeError, TypeError
  | KeyError, KeyError | AttributeError, AttributeError
  | FileNotFoundError, FileNotFoundError | OSError, OSError
  | ParserError, ParserError | OverflowError, OverflowError => true
  | _, _ => false
  end.

(** [try: m except e: h] *)
Definition try_except {A} (m : exc A) (e : exn) (h : exc A) : exc A :=
  match m with
  | Ret a => Ret a
  | Raise e' => if exn_eqb e' e then h else Raise e'
  end.

(** ** Regular expressions

    The patterns of the script use literals, character classes, a greedy
    [+] on a single character class, a greedy optional group ([?] and
    [{0,1}]), alternation and capturing groups.  [re] matches them by
    backtracking, preferring the longer repetition and the left
    alternative; the matcher below does the same, in continuation-passing
    style. *)

Inductive regex :=
| Eps
| Chr (p : char -> bool)
| Plus (p : char -> bool)
| Opt (r : regex)
| Cat (r1 r2 : regex)
| Alt (r1 r2 : regex)
| Grp (n : nat) (r : regex).

Definition caps := list (nat * text).

Fixpoint cap (n : nat) (c : caps) : option text :=
  match c with
  | [] => None
  | (m, t) :: c' => if Nat.eqb m n then Some t else cap n c'
  end.

(** What was consumed between the input [t] and its suffix [t']. *)
Definition taken (t t' : text) : text :=
  firstn (List.length t - List.length t') t.

Section Matcher.
Variable R : Type.

Fixpoint plus_loop (p : char -> bool) (t : text) (k : text -> option R)
  : option R :=
  match t with
  | [] => None
  | x :: t' =>
      if p x
      then match plus_loop p t' k with
           | Some r => Some r
           | None => k t'
           end
      else None
  end.

Fixpoint mtch (r : regex) (t : text) (c : caps)
  (k : text -> caps -> option R) : option R :=
  match r with
  | Eps => k t c
  | Chr p =>
      match t with
      | x :: t' => if p x then k t' c else None
      | [] => None
      end
  | Plus p => plus_loop p t (fun t' => k t' c)
  | Opt r1 =>
      match mtch r1 t c k with
      | Some x => Some x
      | None => k t c
      end
  | Cat r1 r2 => mtch r1 t c (fun t' c' => mtch r2 t' c' k)
  | Alt r1 r2 =>
      match mtch r1 t c k with
      | Some x => Some x
      | None => mtch r2 t c k
      end
  | Grp n r1 => mtch r1 t c (fun t' c' => k t' ((n, taken t t') :: c'))
  end.

End Matcher.

(** A match object: where the match ends (the rest of the text) and the
    groups that took part. *)
Record match_obj := { m_rest : text; m_caps : caps }.

(** [regex.match(text)]: a match at the start of the text. *)
Definition re_match (r : regex) (t : text) : option match_obj :=
  mtch r t [] (fun t' c => Some {| m_rest := t'; m_caps := c |}).

(** [regex.search(text)]: the leftmost match. *)
Fixpoint re_search (r : regex) (t : text) : option match_obj :=
  match re_match r t with
  | Some m => Some m
  | None =>
      match t with
      | [] => None
      | _ :: t' => re_search r t'
      end
  end.

(** [re.sub(r, '', text)]: the text without the matches of [r], found
    from left to right; [skip] counts the characters of the match being
    dropped. *)
Fixpoint re_remove (r : regex) (t : text) (skip : nat) : text :=
  match t with
  | [] => []
  | c :: t' =>
      match skip with
      | S k => re_remove r t' k
      | O =>
          match re_match r t with
          | Some m =>
              match (List.length t - List.length (m_rest m))%nat with
              | S k => re_remove r t' k
              | O => c :: re_remove r t' O
              end
          | None => c :: re_remove r t' O
          end
      end
  end.

(** The number of groups of a pattern. *)
Fixpoint ngroups (r : regex) : nat :=
  match r with
  | Eps | Chr _ | Plus _ => 0
  | Opt r1 => ngroups r1
  | Cat r1 r2 | Alt r1 r2 => ngroups r1 + ngroups r2
  | Grp _ r1 => S (ngroups r1)
  end.

(** [result.group(n)]: [IndexError] when the pattern has no group [n],
    [None] when the group took no part in the match. *)
Definition group (r : regex) (m : match_obj) (n : nat) : exc (option text) :=
  if Nat.leb n (ngroups r) then Ret (cap n (m_caps m)) else Raise IndexError.

(** *** Building patterns *)

Definition none_of (x : text) : char -> bool :=
  fun c => negb (existsb (N.eqb c) x).

Fixpoint lit_text (x : text) : regex :=
  match x with
  | [] => Eps
  | c :: x' => Cat (Chr (N.eqb c)) (lit_text x')
  end.

Definition lit (x : string) : regex := lit_text (s x).
Arguments lit x%_string.

(** [.]: any character but a newline. *)
Definition dot : char -> bool := none_of nl.

(** [\S] *)
Definition non_space : char -> bool := fun c => negb (is_space c).

Declare Scope regex_scope.
Delimit Scope regex_scope with re.
Infix "+++" := Cat (at level 60, right associativity) : regex_scope.

(** [def search(regex_pattern, text)] *)
Definition search (regex_pattern : regex) (txt : option text)
  : exc (option text) :=
  let txt := match txt with
             | None | Some [] => []
             | Some t => t
             end in
  try_except
    (match re_search regex_pattern txt with
     | Some result => group regex_pattern result 1
     | None => Ret None
     end)
    IndexError (Ret None).

(** *** The patterns of the field extractor *)

Section Patterns.
Context `{UnicodeDB}.
Local Open Scope regex_scope.

(** [(\d+) kWp] *)
Definition pat_kWp : regex := Grp 1 (Plus is_digit) +++ lit " kWp".

(** [installed on [^,]+,(?: located in )?([^\n]+)\.?\n] *)
Definition pat_location : regex :=
  lit "installed on " +++ Plus (none_of (s ",")) +++ lit ","
  +++ Opt (lit " located in ") +++ Grp 1 (Plus (none_of nl))
  +++ Opt (lit ".") +++ lit_text nl.

(** [installed on ([^,\.]+),] *)
Definition pat_water_body_type : regex :=
  lit "installed on " +++ Grp 1 (Plus (none_of (s ",."))) +++ lit ",".

(** [(\d+) panels] *)
Definition pat_panel_number : regex :=
  Grp 1 (Plus is_digit) +++ lit " panels".

(** [\(([^\)]+(?:modules|panels))] *)
Definition pat_panel_type : regex :=
  lit "(" +++ Grp 1 (Plus (none_of (s ")"))
                     +++ Alt (lit "modules") (lit "panels")).

(** [covers (?:about )?([^%]+) ?%] *)
Definition pat_covers_pct : regex :=
  lit "covers " +++ Opt (lit "about ") +++ Grp 1 (Plus (none_of (s "%")))
  +++ Opt (lit " ") +++ lit "%".

(** [\((\S+) out of (\S+) ha\).] *)
Definition pat_covers : regex :=
  lit "(" +++ Grp 1 (Plus non_space) +++ lit " out of "
  +++ Grp 2 (Plus non_space) +++ lit " ha)" +++ Chr dot.

(** [a maximum depth of (\S+) m] *)
Definition pat_max_depth : regex :=
  lit "a maximum depth of " +++ Grp 1 (Plus non_space) +++ lit " m".

(** [variation of (\S+) m] *)
Definition pat_level_variation : regex :=
  lit "variation of " +++ Grp 1 (Plus non_space) +++ lit " m".

(** [effective in ((?:\w+ ){0,1}\d+)] *)
Definition pat_interconnect : regex :=
  lit "effective in "
  +++ Grp 1 (Opt (Plus is_word +++ lit " ") +++ Plus is_digit).

(** [construction lasted (\d+ (days|weeks?|months))] *)
Definition pat_construction : regex :=
  lit "construction lasted "
  +++ Grp 1 (Plus is_digit +++ lit " "
             +++ Grp 2 (Alt (lit "days")
                          (Alt (lit "week" +++ Opt (lit "s"))
                               (lit "months")))).

End Patterns.

(** ** Values, dates and conversions *)

Record datetime := {
  year : Z; month : Z; day : Z;
  hour : Z; minute : Z; second : Z; microsecond : Z
}.

(** The values that reach the project table [df]: what [search] returns
    ([None] or a string), the float NaN that pandas puts in a cell nobody
    wrote, parsed dates, and the numbers of the final coercions.  A float
    within the range of binary64 is kept as the exact decimal it was read
    from (its rounding to the nearest binary64 is left out); beyond the
    range it is [PyInf] or zero, the two zeros being one.  [PyClassStr] is
    the class [str] itself. *)
Inductive pyval :=
| PyNone
| PyNaN
| PyStr (t : text)
| PyInt (z : Z)
| PyFloat (q : Q)
| PyInf (negative : bool)
| PyDatetime (d : datetime)
| PyClassStr.

Definition of_opt (o : option text) : pyval :=
  match o with
  | Some t => PyStr t
  | None => PyNone
  end.

(** What a ledger cell can hold: the float NaN of an empty cell, the string
    [read_csv] found, or the [date] the script stored during this run. *)
Inductive lcell :=
| LNaN
| LStr (t : text)
| LDate (y m d : Z).

(** *** Calendar arithmetic of [datetime] *)

Local Open Scope Z_scope.

Definition is_leap (y : Z) : bool :=
  (y mod 4 =? 0) && (negb (y mod 100 =? 0) || (y mod 400 =? 0)).

Definition days_in_month (y m : Z) : Z :=
  if m =? 2 then (if is_leap y then 29 else 28)
  else if (m =? 4) || (m =? 6) || (m =? 9) || (m =? 11) then 30
  else 31.

Definition days_before_year (y : Z) : Z :=
  let y1 := y - 1 in y1 * 365 + y1 / 4 - y1 / 100 + y1 / 400.

Definition days_before_month (y m : Z) : Z :=
  fold_right Z.add 0
    (List.map (fun k => days_in_month y (Z.of_nat k))
       (seq 1 (Z.to_nat (m - 1)))).

Definition ymd2ord (y m d : Z) : Z :=
  days_before_year y + days_before_month y m + d.

Definition toordinal (d : datetime) : Z :=
  ymd2ord (year d) (month d) (day d).

(** A [timedelta], normalized as Python keeps it. *)
Record timedelta := { td_days : Z; td_seconds : Z; td_microseconds : Z }.

Definition mk_timedelta (days seconds microseconds : Z) : timedelta :=
  let seconds' := seconds + microseconds / 1000000 in
  {| td_days := days + seconds' / 86400;
     td_seconds := seconds' mod 86400;
     td_microseconds := microseconds mod 1000000 |}.

(** [a - b] on two [datetime]s *)
Definition dt_sub (a b : datetime) : timedelta :=
  let secs x := second x + minute x * 60 + hour x * 3600 in
  mk_timedelta (toordinal a - toordinal b) (secs a - secs b)
    (microsecond a - microsecond b).

(** [a > b] on two [timedelta]s: the comparison of the triples. *)
Definition td_gt (a b : timedelta) : bool :=
  (td_days b <? td_days a)
  || ((td_days a =? td_days b)
      && ((td_seconds b <? td_seconds a)
          || ((td_seconds a =? td_seconds b)
              && (td_microseconds b <? td_microseconds a)))).

(** [now.date()] *)
Definition date_of (d : datetime) : lcell := LDate (year d) (month d) (day d).

(** *** Decimal text *)

Definition digit_char (d : Z) : char := Z.to_N (48 + d).

(** [n] written with exactly [w] digits (zero padded, [n] below [10^w]). *)
Fixpoint pad_digits (w : nat) (n : Z) : text :=
  match w with
  | O => []
  | S w' => pad_digits w' (n / 10) ++ [digit_char (n mod 10)]
  end.

(** [str(date)], the ISO form [to_csv] writes. *)
Definition isoformat (y m d : Z) : text :=
  pad_digits 4 y ++ s "-" ++ pad_digits 2 m ++ s "-" ++ pad_digits 2 d.

(** [str.strip()] *)
Fixpoint lstrip (t : text) : text :=
  match t with
  | c :: t' => if is_space c then lstrip t' else t
  | [] => []
  end.

Definition strip (t : text) : text := rev (lstrip (rev (lstrip t))).

(** [str.partition(sep)], without the separator: the text before the
    first [sep] and the text after it. *)
Fixpoint partition (sep : char) (t : text) : text * text :=
  match t with
  | [] => ([], [])
  | c :: t' =>
      if N.eqb c sep then ([], t')
      else let (a, b) := partition sep t' in (c :: a, b)
  end.

(** [str.replace(a, b)] for single characters *)
Definition replace (a b : char) (t : text) : text :=
  List.map (fun c => if N.eqb c a then b else c) t.

(** ['\n'.join(ps)] *)
Fixpoint join (sep : text) (ps : list text) : text :=
  match ps with
  | [] => []
  | [p] => p
  | p :: ps' => p ++ sep ++ join sep ps'
  end.

(** The white space [int] and [float] skip around a number: a code point
    from 127 on counts when [str.isspace] holds of it, one below only when
    the C locale says so, which leaves the separators U+001C to U+001F
    out. *)
Definition is_number_space (c : char) : bool :=
  is_space c && negb (between 28 31 c)%N.

Fixpoint number_lstrip (t : text) : text :=
  match t with
  | c :: t' => if is_number_space c then number_lstrip t' else t
  | [] => []
  end.

Definition number_strip (t : text) : text :=
  rev (number_lstrip (rev (number_lstrip t))).

(** The decimals that round to a binary64 infinity: from [2^1024 - 2^970]
    on, half way between the largest binary64 and [2^1024]. *)
Definition float_overflow : Q := (2 ^ 1024 - 2 ^ 970) # 1.

(** The decimals that round to zero: up to [2^-1075], half of the smallest
    binary64 above zero. *)
Definition float_underflow : Q := 1 # Z.to_pos (2 ^ 1075).

Section Numbers.
Context `{UnicodeDB}.

(** A digit part, [digit (["_"] digit)*]: its value, its number of digits
    and the rest of the text. *)
Fixpoint digit_part_loop (t : text) (acc : N) (n : nat) : N * nat * text :=
  match t with
  | c :: t' =>
      match digit_value c with
      | Some v => digit_part_loop t' (acc * 10 + v)%N (S n)
      | None =>
          if N.eqb c 95
          then match t' with
               | c' :: t'' =>
                   match digit_value c' with
                   | Some v => digit_part_loop t'' (acc * 10 + v)%N (S n)
                   | None => (acc, n, t)
                   end
               | [] => (acc, n, t)
               end
          else (acc, n, t)
      end
  | [] => (acc, n, t)
  end.

Definition digit_part (t : text) : option (N * nat * text) :=
  match t with
  | c :: t' =>
      match digit_value c with
      | Some v => Some (digit_part_loop t' v 1)
      | None => None
      end
  | [] => None
  end.

(** An optional sign: [true] for a minus. *)
Definition sign (t : text) : bool * text :=
  match t with
  | 43%N :: t' => (false, t')
  | 45%N :: t' => (true, t')
  | _ => (false, t)
  end.

Definition signed (neg : bool) (n : Z) : Z := if neg then - n else n.

(** [int(t)] on a string, base ten. *)
Definition int_of_text (t : text) : exc Z :=
  let (neg, t1) := sign (number_strip t) in
  match digit_part t1 with
  | Some (v, _, []) => Ret (signed neg (Z.of_N v))
  | _ => Raise ValueError
  end.

(** The mantissa of a float literal: its digits read as one number, how
    many of them follow the point, and the rest of the text. *)
Definition mantissa (t : text) : option (N * nat * text) :=
  match digit_part t with
  | Some (iv, _, 46%N :: r) =>
      match digit_part r with
      | Some (fv, fn, r') => Some ((iv * 10 ^ N.of_nat fn + fv)%N, fn, r')
      | None => Some (iv, O, r)
      end
  | Some (iv, _, r) => Some (iv, O, r)
  | None =>
      match t with
      | 46%N :: r =>
          match digit_part r with
          | Some (fv, fn, r') => Some (fv, fn, r')
          | None => None
          end
      | _ => None
      end
  end.

(** The exponent of a float literal, [0] when there is none; [None] when
    an [e] is followed by no number. *)
Definition exponent (t : text) : option (Z * text) :=
  match t with
  | c :: r =>
      if (N.eqb c 101 || N.eqb c 69)%N
      then let (neg, r1) := sign r in
           match digit_part r1 with
           | Some (ev, _, r2) => Some (signed neg (Z.of_N ev), r2)
           | None => None
           end
      else Some (0, t)
  | [] => Some (0, t)
  end.

Definition ascii_lower (c : char) : char :=
  (if between 65 90 c then c + 32 else c)%N.

Definition scaled (neg : bool) (m : N) (e : Z) : Q :=
  Qred (if 0 <=? e
        then Qmake (signed neg (Z.of_N m * 10 ^ e)) 1
        else Qmake (signed neg (Z.of_N m)) (Z.to_pos (10 ^ (- e)))).

(** The float a decimal is read as. *)
Definition float_of_decimal (neg : bool) (q : Q) : pyval :=
  if Qle_bool float_overflow (Qabs q) then PyInf neg
  else if Qle_bool (Qabs q) float_underflow then PyFloat 0
  else PyFloat q.

(** [float(t)] on a string. *)
Definition float_of_text (t : text) : exc pyval :=
  let (neg, t1) := sign (number_strip t) in
  let low := List.map ascii_lower t1 in
  if text_eqb low (s "inf") || text_eqb low (s "infinity")
  then Ret (PyInf neg)
  else if text_eqb low (s "nan") then Ret PyNaN
  else match mantissa t1 with
       | Some (m, fn, r) =>
           match exponent r with
           | Some (e, []) =>
               Ret (float_of_decimal neg (scaled neg m (e - Z.of_nat fn)))
           | _ => Raise ValueError
           end
       | None => Raise ValueError
       end.

(** [int(v)] on a value of the table *)
Definition py_int (v : pyval) : exc pyval :=
  match v with
  | PyNone | PyDatetime _ | PyClassStr => Raise TypeError
  | PyNaN => Raise ValueError
  | PyInf _ => Raise OverflowError
  | PyStr t => (z <- int_of_text t ;; Ret (PyInt z))%exc
  | PyInt z => Ret (PyInt z)
  | PyFloat q => Ret (PyInt (Z.quot (Qnum q) (Zpos (Qden q))))
  end.

(** [pd.isnull(v)] *)
Definition isnull (v : pyval) : bool :=
  match v with
  | PyNone | PyNaN => true
  | _ => false
  end.

End Numbers.

(** ** [datetime.strptime]

    [strptime] turns its format into a pattern, matched at the start of the
    string without regard to case; what the pattern leaves over is an
    error.  Month names are the English ones. *)

Definition month_names : list text :=
  [s "january"; s "february"; s "march"; s "april"; s "may"; s "june";
   s "july"; s "august"; s "september"; s "october"; s "november";
   s "december"].

(** A lower-case ASCII letter of a pattern compiled with IGNORECASE: the
    letter, its capital, and the four letters outside ASCII that fold to
    [i], [s] and [k]. *)
Definition icase (x : char) : char -> bool :=
  fun c =>
    (N.eqb c x || N.eqb (ascii_lower c) x
     || (N.eqb x 105 && (N.eqb c 304 || N.eqb c 305))
     || (N.eqb x 115 && N.eqb c 383)
     || (N.eqb x 107 && N.eqb c 8490))%N.

Fixpoint ilit (x : text) : regex :=
  match x with
  | [] => Eps
  | c :: x' => Cat (Chr (icase c)) (ilit x')
  end.

Fixpoint alts (rs : list regex) : regex :=
  match rs with
  | [] => Chr (fun _ => false)
  | [r] => r
  | r :: rs' => Alt r (alts rs')
  end.

(** The names as [strptime] tries them: the longest first. *)
Definition pat_month_name : regex :=
  alts (List.map ilit
    [s "september"; s "february"; s "november"; s "december"; s "january";
     s "october"; s "august"; s "march"; s "april"; s "june"; s "july";
     s "may"]).

Fixpoint index_of (x : text) (l : list text) (i : Z) : option Z :=
  match l with
  | [] => None
  | y :: l' => if text_eqb x y then Some i else index_of x l' (i + 1)
  end.

Section Strptime.
Context `{UnicodeDB}.
Local Open Scope regex_scope.

Definition pat_year : regex :=
  Chr is_digit +++ Chr is_digit +++ Chr is_digit +++ Chr is_digit.

(** [%B %Y] *)
Definition fmt_BY : regex :=
  Grp 1 pat_month_name +++ Plus is_space +++ Grp 2 pat_year.

(** [%Y] *)
Definition fmt_Y : regex := Grp 1 pat_year.

(** [%Y-%m] *)
Definition fmt_Ym : regex :=
  Grp 1 pat_year +++ lit "-"
  +++ Grp 2 (Alt (lit "1" +++ Chr (between 48 50)%N)
               (Alt (lit "0" +++ Chr (between 49 57)%N)
                    (Chr (between 49 57)%N))).

Definition group_int (m : match_obj) (n : nat) : exc Z :=
  match cap n (m_caps m) with
  | Some t => int_of_text t
  | None => Raise ValueError
  end.

(** The first day of a month, [ValueError] for a year below 1. *)
Definition first_of (y m : Z) : exc datetime :=
  if y <? 1 then Raise ValueError
  else Ret {| year := y; month := m; day := 1;
              hour := 0; minute := 0; second := 0; microsecond := 0 |}.

(** The part common to the three formats: [TypeError] for anything but a
    string ([None] here), [ValueError] when the pattern does not match or
    leaves text over. *)
Definition strptime_with (fmt : regex) (k : match_obj -> exc datetime)
  (x : option text) : exc datetime :=
  match x with
  | None => Raise TypeError
  | Some t =>
      match re_match fmt t with
      | Some m =>
          match m_rest m with
          | [] => k m
          | _ => Raise ValueError
          end
      | None => Raise ValueError
      end
  end.

(** [datetime.strptime(x, '%B %Y')] *)
Definition strptime_BY : option text -> exc datetime :=
  strptime_with fmt_BY (fun m =>
    match cap 1 (m_caps m) with
    | Some b =>
        match index_of (List.map ascii_lower b) month_names 1 with
        | Some mo => (y <- group_int m 2 ;; first_of y mo)%exc
        | None => Raise ValueError
        end
    | None => Raise ValueError
    end).

(** [datetime.strptime(x, '%Y')] *)
Definition strptime_Y : option text -> exc datetime :=
  strptime_with fmt_Y (fun m => (y <- group_int m 1 ;; first_of y 1)%exc).

(** [datetime.strptime(x, '%Y-%m')] *)
Definition strptime_Ym : option text -> exc datetime :=
  strptime_with fmt_Ym (fun m =>
    (y <- group_int m 1 ;; mo <- group_int m 2 ;; first_of y mo)%exc).

End Strptime.

(** ** pandas tables

    A [DataFrame] as the script uses it: named columns and labelled rows,
    read and written one cell at a time through [.loc].  A cell nobody
    wrote holds [nan]. *)

Section Frame.
Variable A : Type.
Variable nan : A.

Definition row := list (text * A).

Record frame := { columns : list text; rows : list (text * row) }.

Fixpoint row_get (c : text) (r : row) : A :=
  match r with
  | [] => nan
  | (c', v) :: r' => if text_eqb c c' then v else row_get c r'
  end.

Definition has_label (k : text) (x : text * row) : bool :=
  text_eqb k (fst x).

(** The rows that carry the label [k]. *)
Definition rows_at (k : text) (f : frame) : list row :=
  List.map snd (filter (has_label k) (rows f)).

(** [k in f.index] *)
Definition in_index (k : text) (f : frame) : bool :=
  existsb (has_label k) (rows f).

Definition has_column (c : text) (f : frame) : bool :=
  existsb (text_eqb c) (columns f).

(** [f.loc[k, c] = v]: a missing column and a missing row are added, and
    every row labelled [k] gets the value. *)
Definition loc_set (f : frame) (k c : text) (v : A) : frame :=
  {| columns := if has_column c f then columns f else columns f ++ [c];
     rows :=
       if in_index k f
       then List.map
              (fun x => if has_label k x then (fst x, (c, v) :: snd x) else x)
              (rows f)
       else rows f ++ [(k, [(c, v)])] |}.

(** What [f.loc[k, c]] gives: one cell, or a [Series] when several rows
    carry the label. *)
Inductive loc_result :=
| Scalar (a : A)
| Series.

(** [f.loc[k, c]] *)
Definition loc_get (f : frame) (k c : text) : exc loc_result :=
  if has_column c f
  then match rows_at k f with
       | [] => Raise KeyError
       | [r] => Ret (Scalar (row_get c r))
       | _ => Ret Series
       end
  else Raise KeyError.

End Frame.

Arguments Series {A}.

(** *** The ledger file

    [last_downloaded.csv] is kept as the table of its cells' text.
    [to_csv] writes a date in ISO form and an empty cell for NaN.  Of
    [read_csv] this is the reading of the cells a ledger has, dates and
    empty cells under labels that are titles and paths: an empty cell is
    NaN and a date comes back as the string written.  What pandas does
    with other text is left out: a cell that spells a missing value
    ([NA], [nan], [NULL] and the like) is read as NaN too, and a column or
    an index made of numbers only comes back as numbers. *)

Record csv := { csv_header : list text; csv_rows : list (text * list text) }.

Definition render (c : lcell) : text :=
  match c with
  | LNaN => []
  | LStr t => t
  | LDate y m d => isoformat y m d
  end.

Definition to_csv (f : frame lcell) : csv :=
  {| csv_header := columns f;
     csv_rows :=
       List.map
         (fun x => (fst x,
                    List.map (fun c => render (row_get LNaN c (snd x)))
                      (columns f)))
         (rows f) |}.

Definition read_cell (t : text) : lcell :=
  match t with
  | [] => LNaN
  | _ => LStr t
  end.

(** [pd.read_csv(..., index_col=0)] *)
Definition read_csv (c : csv) : frame lcell :=
  {| columns := csv_header c;
     rows :=
       List.map
         (fun x => (fst x, combine (csv_header c) (List.map read_cell (snd x))))
         (csv_rows c) |}.

(** ** The state of a run *)

Record world := {
  files : list (text * text);
  ledger_file : option csv;
  last_downloaded : frame lcell;
  df : frame pyval;
  requests : list text
}.

Definition set_files (x : list (text * text)) (w : world) : world :=
  {| files := x; ledger_file := ledger_file w;
     last_downloaded := last_downloaded w; df := df w;
     requests := requests w |}.

Definition set_ledger_file (x : option csv) (w : world) : world :=
  {| files := files w; ledger_file := x;
     last_downloaded := last_downloaded w; df := df w;
     requests := requests w |}.

Definition set_last_downloaded (x : frame lcell) (w : world) : world :=
  {| files := files w; ledger_file := ledger_file w;
     last_downloaded := x; df := df w; requests := requests w |}.

Definition set_df (x : frame pyval) (w : world) : world :=
  {| files := files w; ledger_file := ledger_file w;
     last_downloaded := last_downloaded w; df := x;
     requests := requests w |}.

Definition set_requests (x : list text) (w : world) : world :=
  {| files := files w; ledger_file := ledger_file w;
     last_downloaded := last_downloaded w; df := df w; requests := x |}.

(** A computation that reads and writes the state and may raise; the state
    reached when it raises is kept. *)
Definition M (A : Type) := world -> exc A * world.

Definition mret {A} (a : A) : M A := fun w => (Ret a, w).

Definition mraise {A} (e : exn) : M A := fun w => (Raise e, w).

Definition mbind {A B} (m : M A) (f : A -> M B) : M B :=
  fun w =>
    match m w with
    | (Ret a, w') => f a w'
    | (Raise e, w') => (Raise e, w')
    end.

Definition lift {A} (m : exc A) : M A := fun w => (m, w).

Definition gets {A} (f : world -> A) : M A := fun w => (Ret (f w), w).

Definition modify (f : world -> world) : M unit := fun w => (Ret tt, f w).

(** [try: m except e: h] *)
Definition mtry {A} (m : M A) (e : exn) (h : M A) : M A :=
  fun w =>
    match m w with
    | (Ret a, w') => (Ret a, w')
    | (Raise e', w') => if exn_eqb e' e then h w' else (Raise e', w')
    end.

Declare Scope M_scope.
Delimit Scope M_scope with M.
Notation "x <- m ;; k" := (mbind m (fun x => k))
  (at level 61, m at next level, right associativity) : M_scope.
Notation "m ;;; k" := (mbind m (fun _ => k))
  (at level 61, right associativity) : M_scope.

(** *** Files *)

Fixpoint assoc {A} (k : text) (l : list (text * A)) : option A :=
  match l with
  | [] => None
  | (k', v) :: l' => if text_eqb k k' then Some v else assoc k l'
  end.

Definition file_exists (path : text) (w : world) : bool :=
  match assoc path (files w) with
  | Some _ => true
  | None => false
  end.

(** [os.path.exists(path)] *)
Definition path_exists (path : text) : M bool := gets (file_exists path).

(** [open(path).read()] *)
Definition read_file (path : text) : M text :=
  fun w =>
    match assoc path (files w) with
    | Some c => (Ret c, w)
    | None => (Raise FileNotFoundError, w)
    end.

(** What [open(path, 'w')] followed by a [write] leaves. *)
Definition write_file (path content : text) : M unit :=
  modify (fun w => set_files ((path, content) :: files w) w).

(** ** The outside of the script *)

(** A list item of the index page, as the selectors see it: the title
    [div], if any, with its text, if any, and the anchor, if any, with its
    [href], if any. *)
Record li := {
  li_div_text : option (option text);
  li_anchor : option (option text)
}.

(** lxml, as far as the script looks into a document: its serialization,
    the list items of the projects, the serialized first
    [div.content-article], and the text nodes of the paragraphs under the
    content container. *)
Class Lxml := {
  page : Type;
  fromstring : text -> exc page;
  tostring : page -> text;
  project_lis : page -> list li;
  content_article : page -> option text;
  p_texts : page -> list text
}.

(** The web server ([requests.get]: a status code and a decoded body) and
    the clock (the global [now]). *)
Class Outside := {
  server : text -> N * text;
  now : datetime
}.

(** ** The script: what the two copies share *)

Section Script.
Context `{UnicodeDB} `{Lxml} `{Outside}.
Local Open Scope M_scope.
Local Open Scope regex_scope.

Definition site_root : text := s "http://www.ciel-et-terre.net".

(** [^http://www.ciel-et-terre.net], its dots unescaped. *)
Definition pat_site : regex :=
  lit "http://www" +++ Chr dot +++ lit "ciel-et-terre" +++ Chr dot
  +++ lit "net".

(** [^/] *)
Definition pat_slash : regex := lit "/".

(** The address [fetch] asks for. *)
Definition resolve (target : text) : text :=
  match re_match pat_site target with
  | Some _ => target
  | None =>
      let target :=
        match re_match pat_slash target with
        | Some _ => target
        | None => s "/" ++ target
        end in
      site_root ++ target
  end.

(** [def fetch(target)]; [re.match] refuses a target that is not a string
    ([None] here). *)
Definition fetch (target : option text) : M page :=
  match target with
  | None => mraise TypeError
  | Some target =>
      let target := resolve target in
      modify (fun w => set_requests (requests w ++ [target]) w) ;;;
      let (status_code, content) := server target in
      if N.eqb status_code 200
      then lift (fromstring content)
      else mraise ValueError
  end.

(** [(?i)floating solar(?: pv)? (system|plant)\W*-] *)
Definition pat_boilerplate : regex :=
  ilit (s "floating solar") +++ Opt (ilit (s " pv")) +++ ilit (s " ")
  +++ Grp 1 (Alt (ilit (s "system")) (ilit (s "plant")))
  +++ Opt (Plus (fun c => negb (is_word c))) +++ ilit (s "-").

(** [def get_name_kwp(li)]; [re.sub] refuses a text that is not a string
    (a [div] without text). *)
Definition get_name_kwp (item : li) : exc (text * text) :=
  try_except
    match li_div_text item with
    | Some (Some div_text) =>
        let txt := re_remove pat_boilerplate div_text O in
        let (name, kwp) := partition 45%N txt in
        Ret (strip name, strip kwp)
    | Some None => Raise TypeError
    | None => Raise IndexError
    end
    IndexError (Raise IndexError).

(** [df.loc[title, col] = v] *)
Definition df_set (title col : text) (v : pyval) : M unit :=
  modify (fun w => set_df (loc_set (df w) title col v) w).

(** [df.loc[title, col] = search(pattern, text)] *)
Definition df_search (title col : text) (pattern : regex) (txt : text)
  : M unit :=
  v <- lift (search pattern (Some txt)) ;; df_set title col (of_opt v).

(** [def parse_basic(text, title)] *)
Definition parse_basic (txt title : text) : M unit :=
  df_search title (s "kWp") pat_kWp txt ;;;
  df_search title (s "location") pat_location txt ;;;
  df_search title (s "water_body_type") pat_water_body_type txt.

(** The two area tokens of [parse_system]. *)
Definition covers (txt : text) : exc (option text * option text) :=
  match re_search pat_covers txt with
  | Some results =>
      (covers_panels <-
         try_except (group pat_covers results 1) IndexError (Ret None) ;;
       covers_total <-
         try_except (group pat_covers results 2) IndexError (Ret None) ;;
       Ret (covers_panels, covers_total))%exc
  | None => Ret (None, None)
  end.

(** [def parse_system(text, title)] *)
Definition parse_system (txt title : text) : M unit :=
  df_search title (s "panel_number") pat_panel_number txt ;;;
  df_search title (s "panel_type") pat_panel_type txt ;;;
  df_search title (s "covers_pct") pat_covers_pct txt ;;;
  c <- lift (covers txt) ;;
  df_set title (s "covers_panels") (of_opt (fst c)) ;;;
  df_set title (s "covers_total") (of_opt (snd c)).

(** [def parse_advanced(text, title)] *)
Definition parse_advanced (txt title : text) : M unit :=
  df_search title (s "max_depth") pat_max_depth txt ;;;
  df_search title (s "level_variation") pat_level_variation txt.

(** The date of [parse_date]: [%B %Y], then [%Y] on a [ValueError]. *)
Definition interconnect_date (interconnect_str : option text)
  : exc datetime :=
  try_except (strptime_BY interconnect_str) ValueError
    (strptime_Y interconnect_str).

(** [def parse_date(text, title)] *)
Definition parse_date (txt title : text) : M unit :=
  interconnect_str <- lift (search pat_interconnect (Some txt)) ;;
  date <- lift (interconnect_date interconnect_str) ;;
  construction_duration <- lift (search pat_construction (Some txt)) ;;
  df_set title (s "interconnection_date") (PyDatetime date) ;;;
  df_set title (s "construction_duration") (of_opt construction_duration).

(** The text [parse_page] builds from the text nodes. *)
Definition page_text (nodes : list text) : text :=
  join nl
    (List.map (fun p => strip (replace 160%N 32%N p))
       (filter (fun p => match p with [] => false | _ => true end) nodes)).

(** [def parse_page(page, title)] *)
Definition parse_page (pg : page) (title : text) : M unit :=
  let txt := page_text (p_texts pg) in
  match txt with
  | [] => mret tt
  | _ =>
      parse_basic txt title ;;;
      parse_system txt title ;;;
      parse_advanced txt title ;;;
      parse_date txt title
  end.

(** The end of [download_page]: the file is opened for writing, which
    empties it, before the content container is looked for; then the
    ledger gets today's date and is written out. *)
Definition store_page (pg : page) (title : text) : M unit :=
  write_file title [] ;;;
  match content_article pg with
  | Some a => write_file title a
  | None => mraise IndexError
  end ;;;
  modify (fun w =>
    set_last_downloaded
      (loc_set (last_downloaded w) title (s "last_download") (date_of now))
      w) ;;;
  modify (fun w => set_ledger_file (Some (to_csv (last_downloaded w))) w).

Definition title_of (name kwp : text) : text := name ++ s "-" ++ kwp.

Definition file_path_of (title : text) : text :=
  s "ciel_et_terre_projects/" ++ title ++ s ".html".

(** What a ledger cell is for [strptime]: its text when it is a string. *)
Definition str_of (r : loc_result lcell) : option text :=
  match r with
  | Scalar (LStr t) => Some t
  | _ => None
  end.

(** The cache decision of [get_projects], with the call of [download_page]
    left to each copy:
[[
        if not os.path.exists(file_path):
            if title in last_downloaded.index:
                recency = datetime.strptime(
                    last_downloaded.loc[title, 'last_downloaded'], '%Y-%m')
                if now - recency > timedelta(days=30):
                    download_page(..., file_path)
                else:
                    pass
            else:
                download_page(..., file_path)
]] *)
Definition ensure_cached (download_page : text -> M unit)
  (title file_path : text) : M unit :=
  present <- path_exists file_path ;;
  if negb present
  then
    known <- gets (fun w => in_index title (last_downloaded w)) ;;
    if known
    then
      cell <- (fun w =>
                 (loc_get LNaN (last_downloaded w) title (s "last_downloaded"),
                  w)) ;;
      recency <- lift (strptime_Ym (str_of cell)) ;;
      if td_gt (dt_sub now recency) (mk_timedelta 30 0 0)
      then download_page file_path
      else mret tt
    else download_page file_path
  else mret tt.

(** The end of the loop body: the local file is read and parsed. *)
Definition parse_cached (title file_path : text) : M unit :=
  content <- read_file file_path ;;
  pg <- lift (fromstring content) ;;
  parse_page pg title.

(** [html.parse(path).getroot()] *)
Definition parse_file (path : text) : M page :=
  fun w =>
    match assoc path (files w) with
    | Some c => (fromstring c, w)
    | None => (Raise OSError, w)
    end.

Definition main_path : text := s "ciel_et_terre_projects/main.html".

(** The start of [get_projects]: the index page, from the local copy when
    the ledger knows ['main'], from the server otherwise. *)
Definition main_page : M page :=
  known <- gets (fun w => in_index (s "main") (last_downloaded w)) ;;
  if known
  then parse_file main_path
  else
    main <- fetch (Some (s "our-floating-solar-power-plants-references/")) ;;
    write_file main_path (tostring main) ;;;
    modify (fun w =>
      set_last_downloaded
        (loc_set (last_downloaded w) (s "main") (s "last_downloaded")
           (date_of now))
        w) ;;;
    mret main.

(** [for li in lis: body(li)] *)
Fixpoint for_each {A} (body : A -> M unit) (l : list A) : M unit :=
  match l with
  | [] => mret tt
  | x :: l' => body x ;;; for_each body l'
  end.

End Script.

(** ** The copy at the top of the repository *)

Module V1.
Section V1.
Context `{UnicodeDB} `{Lxml} `{Outside}.
Local Open Scope M_scope.

(** [def get_page(li)] *)
Definition get_page (item : li) : M page :=
  mtry
    match li_anchor item with
    | Some href => fetch href
    | None => mraise IndexError
    end
    IndexError (mraise IndexError).

(** [def download_page(li, title)] *)
Definition download_page (item : li) (title : text) : M unit :=
  pg <- get_page item ;; store_page pg title.

(** The body of the loop of [get_projects]. *)
Definition project_step (item : li) : M unit :=
  name_kwp <- lift (get_name_kwp item) ;;
  let title := title_of (fst name_kwp) (snd name_kwp) in
  let file_path := file_path_of title in
  ensure_cached (download_page item) title file_path ;;;
  parse_cached title file_path.

(** [def get_projects()] *)
Definition get_projects : M unit :=
  main <- main_page ;; for_each project_step (project_lis main).

(** [make_decimal = lambda s: float(s.replace(',', '.')) if s else None] *)
Definition make_decimal (v : pyval) : exc pyval :=
  match v with
  | PyNone | PyStr [] | PyInt 0 => Ret PyNone
  | PyStr t => float_of_text (replace 44%N 46%N t)
  | PyFloat q => if Qeq_bool q 0 then Ret PyNone else Raise AttributeError
  | PyDatetime _ | PyClassStr => Raise TypeError
  | PyNaN | PyInt _ | PyInf _ => Raise AttributeError
  end.

(** [df['kWp'].apply(lambda s: int(s))] on one cell *)
Definition coerce_kWp (v : pyval) : exc pyval := py_int v.

(** [df['panel_number'].apply(lambda s: int(s))] on one cell *)
Definition coerce_panel_number (v : pyval) : exc pyval := py_int v.

End V1.
End V1.

(** ** The copy in [ciel_et_terre/] *)

Module V2.
Section V2.
Context `{UnicodeDB} `{Lxml} `{Outside}.
Local Open Scope M_scope.

(** [def get_link(li)] *)
Definition get_link (item : li) : exc (option text) :=
  try_except
    match li_anchor item with
    | Some href => Ret href
    | None => Raise IndexError
    end
    IndexError (Raise IndexError).

(** [def download_page(link, title)] *)
Definition download_page (link : option text) (title : text) : M unit :=
  pg <- fetch link ;; store_page pg title.

(** The body of the loop of [get_projects]. *)
Definition project_step (item : li) : M unit :=
  name_kwp <- lift (get_name_kwp item) ;;
  let title := title_of (fst name_kwp) (snd name_kwp) in
  link <- lift (get_link item) ;;
  df_set title (s "source") (of_opt link) ;;;
  let file_path := file_path_of title in
  ensure_cached (download_page link) title file_path ;;;
  parse_cached title file_path.

(** [def get_projects()] *)
Definition get_projects : M unit :=
  main <- main_page ;; for_each project_step (project_lis main).

(** [[
    def make_decimal(s):
        if s is str:
            return float(s.replace(',', '.'))
]]
    [s is str] holds of the class [str] alone, whose [replace] then lacks
    an argument; for every other value the function ends without a
    [return]. *)
Definition make_decimal (v : pyval) : exc pyval :=
  match v with
  | PyClassStr => Raise TypeError
  | _ => Ret PyNone
  end.

(** [df['kWp'].apply(lambda s: int(s) if not pd.isnull(s) else 0)] on one
    cell *)
Definition coerce_kWp (v : pyval) : exc pyval :=
  if negb (isnull v) then py_int v else Ret (PyInt 0).

(** The line for [panel_number],
    [lambda s: int(s) if not pd.isnull(s)], has no [else] and is not an
    expression of Python: this copy has no coercion of the panel count to
    embed. *)

End V2.
End V2.

(** ** Notions the properties are stated with *)

Section CellIs.
Variable A : Type.
Variable nan : A.

(** Every row labelled [k] holds [v] in column [c], and there is such a
    row. *)
Definition cell_is (f : frame A) (k c : text) (v : A) : Prop :=
  rows_at k f <> [] /\ Forall (fun r => row_get nan c r = v) (rows_at k f).

End CellIs.

(** The groups that take part in every match of a pattern. *)
Fixpoint sets (n : nat) (r : regex) : bool :=
  match r with
  | Eps | Chr _ | Plus _ | Opt _ => false
  | Cat r1 r2 => sets n r1 || sets n r2
  | Alt r1 r2 => sets n r1 && sets n r2
  | Grp m r1 => Nat.eqb m n || sets n r1
  end.

(** What [search] returns, without the exception plumbing. *)
Definition found (r : regex) (t : text) : option text :=
  match re_search r t with
  | Some m => if Nat.leb 1 (ngroups r) then cap 1 (m_caps m) else None
  | None => None
  end.

(** What [covers] returns, without the exception plumbing. *)
Definition covers_found (t : text) : option text * option text :=
  match re_search pat_covers t with
  | Some m => (cap 1 (m_caps m), cap 2 (m_caps m))
  | None => (None, None)
  end.

(** The fields of the extractor other than the interconnection date, with
    the column, the pattern and the function of the script that fills
    each. *)
Inductive field :=
| f_kWp | f_location | f_water_body_type
| f_panel_number | f_panel_type | f_covers_pct
| f_covers_panels | f_covers_total
| f_max_depth | f_level_variation
| f_construction_duration.

Definition column_of (f : field) : text :=
  match f with
  | f_kWp => s "kWp"
  | f_location => s "location"
  | f_water_body_type => s "water_body_type"
  | f_panel_number => s "panel_number"
  | f_panel_type => s "panel_type"
  | f_covers_pct => s "covers_pct"
  | f_covers_panels => s "covers_panels"
  | f_covers_total => s "covers_total"
  | f_max_depth => s "max_depth"
  | f_level_variation => s "level_variation"
  | f_construction_duration => s "construction_duration"
  end.

Section Fields.
Context `{UnicodeDB}.

Definition pattern_of (f : field) : regex :=
  match f with
  | f_kWp => pat_kWp
  | f_location => pat_location
  | f_water_body_type => pat_water_body_type
  | f_panel_number => pat_panel_number
  | f_panel_type => pat_panel_type
  | f_covers_pct => pat_covers_pct
  | f_covers_panels | f_covers_total => pat_covers
  | f_max_depth => pat_max_depth
  | f_level_variation => pat_level_variation
  | f_construction_duration => pat_construction
  end.

Definition extractor_of (f : field) : text -> text -> M unit :=
  match f with
  | f_kWp | f_location | f_water_body_type => parse_basic
  | f_panel_number | f_panel_type | f_covers_pct
  | f_covers_panels | f_covers_total => parse_system
  | f_max_depth | f_level_variation => parse_advanced
  | f_construction_duration => parse_date
  end.

End Fields.

(** *** The projects of a listing *)

Section Listed.
Context `{UnicodeDB}.

(** [k] is the title of one of the [items]. *)
Definition listed_title (items : list li) (k : text) : Prop :=
  exists item name kwp,
    In item items /\ get_name_kwp item = Ret (name, kwp)
    /\ k = title_of name kwp.

(** [url] is the address [fetch] asks for the link of one of the
    [items]. *)
Definition listed_link (items : list li) (url : text) : Prop :=
  exists item href,
    In item items /\ li_anchor item = Some (Some href)
    /\ url = resolve href.

(** The requests of a download: one, for the link, when there is a link. *)
Definition link_requests (link : option (option text)) : list text :=
  match link with
  | Some (Some href) => [resolve href]
  | _ => []
  end.

End Listed.

(** *** Small instances, to run the script on *)

(** Documents that are one paragraph: the source text is the paragraph
    and the content container; the document whose text is [index] lists
    [lis]. *)
Definition one_paragraph (index : text) (lis : list li) : Lxml :=
  {| page := text;
     fromstring := fun t => Ret t;
     tostring := fun pg => pg;
     project_lis := fun pg => if text_eqb pg index then lis else [];
     content_article := fun pg => Some pg;
     p_texts := fun pg => [pg] |}.

Definition index_url : text :=
  s "http://www.ciel-et-terre.net/our-floating-solar-power-plants-references/".

(** A server that has an index page and answers every other request with
    the same page, and a clock at noon of a given day. *)
Definition small_site (index body : text) (y m d : Z) : Outside :=
  {| server := fun url =>
       if text_eqb url index_url then (200%N, index) else (200%N, body);
     now := {| year := y; month := m; day := d;
               hour := 12; minute := 0; second := 0; microsecond := 0 |} |}.

(** The table [df] at the start of a run. *)
Definition df0 : frame pyval :=
  {| columns :=
       [s "kWp"; s "location"; s "water_body_type"; s "panel_number";
        s "panel_type"; s "covers_pct"; s "covers_panels";
        s "covers_total"; s "max_depth"; s "level_variation";
        s "interconnection_date"; s "construction_duration"];
     rows := [] |}.

(** The state at the start of a run: the files at hand and the ledger read
    from its file, or empty when there is none. *)
Definition start (fs : list (text * text)) (ledger : option csv) : world :=
  {| files := fs;
     ledger_file := ledger;
     last_downloaded :=
       match ledger with
       | Some c => read_csv c
       | None => {| columns := [s "last_downloaded"]; rows := [] |}
       end;
     df := df0;
     requests := [] |}.

(** A target without the slash it may begin with. *)
Definition without_leading_slash (target : text) : text :=
  match target with
  | c :: p => if N.eqb 47 c then p else target
  | [] => target
  end.

(** Whether [t] begins with [p]. *)
Fixpoint starts_with (p t : text) : bool :=
  match p, t with
  | [], _ => true
  | a :: p', b :: t' => N.eqb a b && starts_with p' t'
  | _ :: _, [] => false
  end.

(** An absolute address of the site: one that begins with the site root. *)
Definition is_site_address (target : text) : bool :=
  starts_with site_root target.

(** A project of the index page, the page the server has for it, and two
    consecutive days. *)
Definition umenoki : li :=
  {| li_div_text := Some (Some (s "Floating Solar System - Umenoki - 1153 kWp"));
     li_anchor := Some (Some (s "/umenoki")) |}.

Definition umenoki_title : text := s "Umenoki-1153 kWp".

Definition umenoki_path : text :=
  s "ciel_et_terre_projects/Umenoki-1153 kWp.html".

Definition umenoki_url : text := s "http://www.ciel-et-terre.net/umenoki".

Definition umenoki_page : text :=
  s "Interconnection was effective in March 2019".

Definition index_page : text := s "Our floating solar power plants".

Definition pages : Lxml := one_paragraph index_page [umenoki].

Definition march_5 : Outside := small_site index_page umenoki_page 2019 3 5.

Definition march_6 : Outside := small_site index_page umenoki_page 2019 3 6.

(** A ledger file that knows the project, with the given text as its
    date. *)
Definition ledger_with (month_text : text) : csv :=
  {| csv_header := [s "last_downloaded"];
     csv_rows := [(umenoki_title, [month_text])] |}.

(** A list item without a title, a second project, and the index page
    that lists the three. *)
Definition untitled : li :=
  {| li_div_text := None; li_anchor := Some (Some (s "/untitled")) |}.

Definition sakasama : li :=
  {| li_div_text := Some (Some (s "Floating Solar Plant - Sakasama - 2000 kWp"));
     li_anchor := Some (Some (s "/sakasama")) |}.

Definition three_projects : Lxml :=
  one_paragraph index_page [umenoki; untitled; sakasama].

(** Documents without a content container. *)
Definition bare_pages : Lxml :=
  {| page := text;
     fromstring := fun t => Ret t;
     tostring := fun pg => pg;
     project_lis := fun _ => [];
     content_article := fun _ => None;
     p_texts := fun pg => [pg] |}.

(** Documents with two paragraphs, a space and a non-breaking space. *)
Definition blank_pages : Lxml :=
  {| page := text;
     fromstring := fun t => Ret t;
     tostring := fun pg => pg;
     project_lis := fun _ => [];
     content_article := fun pg => Some pg;
     p_texts := fun _ => [[32%N]; [160%N]] |}.

(** ** The duration conversion of the dataset builder *)

Section ToDays.
Context `{UnicodeDB}.
Local Open Scope regex_scope.

(** [(?P<num>\d+) (?P<name>[^s]+)s?] *)
Definition pat_to_days : regex :=
  Grp 1 (Plus is_digit) +++ lit " " +++ Grp 2 (Plus (none_of (s "s")))
  +++ Opt (lit "s").

(** The [days] of a [timedelta] built from one keyword, [unit], with the
    value [n]: the keywords [timedelta] knows, each
    with its length; any other keyword is a [TypeError], and more than
    999999999 days an [OverflowError]. *)
Definition timedelta_days (unit : text) (n : Z) : exc Z :=
  let within (d : Z) : exc Z :=
    if Z.abs d >? 999999999 then Raise OverflowError else Ret d in
  if text_eqb unit (s "days") then within n
  else if text_eqb unit (s "weeks") then within (7 * n)
  else if text_eqb unit (s "hours") then within (n / 24)
  else if text_eqb unit (s "minutes") then within (n / 1440)
  else if text_eqb unit (s "seconds") then within (n / 86400)
  else if text_eqb unit (s "milliseconds") then within (n / 86400000)
  else if text_eqb unit (s "microseconds") then within (n / 86400000000)
  else Raise TypeError.

(** [[
    def to_days(s):
        if s:
            m = re.match('(?P<num>\d+) (?P<name>[^s]+)s?', s)
            delta = timedelta( **{m.group('name') + 's': int(m.group('num'))})
            return delta.days
        else:
            return None
]]
    [re.match] refuses what is not a string; without a match [m] is [None]
    and has no [group]. *)
Definition to_days (v : pyval) : exc pyval :=
  match v with
  | PyNone | PyStr [] | PyInt 0 => Ret PyNone
  | PyFloat q =>
      if Qeq_bool q 0 then Ret PyNone else Raise TypeError
  | PyStr t =>
      match re_match pat_to_days t with
      | Some m =>
          match cap 2 (m_caps m), cap 1 (m_caps m) with
          | Some name, Some num =>
              (n <- int_of_text num ;;
               d <- timedelta_days (name ++ s "s") n ;;
               Ret (PyInt d))%exc
          | _, _ => Raise TypeError
          end
      | None => Raise AttributeError
      end
  | PyNaN | PyInt _ | PyInf _ | PyDatetime _ | PyClassStr => Raise TypeError
  end.

(** The number a string of digits stands for. *)
Definition number_of (digits : text) : N :=
  fold_left
    (fun acc c => match digit_value c with
                  | Some v => acc * 10 + v
                  | None => acc
                  end)%N
    digits 0%N.

(** No digit of the database is a white space (none is, in Unicode). *)
Definition digits_are_not_spaces : Prop :=
  forall c, is_digit c = true -> is_space c = false.

End ToDays.

(** ** What a match is

    The text a pattern matches and the groups it sets, the last one set
    first: what the matcher is sound for. *)

Inductive matches : regex -> text -> caps -> Prop :=
| M_Eps : matches Eps [] []
| M_Chr p c : p c = true -> matches (Chr p) [c] []
| M_Plus p v : v <> [] -> forallb p v = true -> matches (Plus p) v []
| M_Opt_some r v g : matches r v g -> matches (Opt r) v g
| M_Opt_none r : matches (Opt r) [] []
| M_Cat r1 r2 v1 v2 g1 g2 :
    matches r1 v1 g1 -> matches r2 v2 g2 ->
    matches (Cat r1 r2) (v1 ++ v2) (g2 ++ g1)
| M_Alt_left r1 r2 v g : matches r1 v g -> matches (Alt r1 r2) v g
| M_Alt_right r1 r2 v g : matches r2 v g -> matches (Alt r1 r2) v g
| M_Grp n r v g : matches r v g -> matches (Grp n r) v ((n, v) :: g).

(** [x] is a piece of [t]. *)
Definition occurs_in (x t : text) : Prop :=
  exists before after, t = before ++ x ++ after.

(** * Properties *)

(** ** Text and tables *)

Lemma text_eqb_eq (a b : text) : text_eqb a b = true <-> a = b.
Proof.
  unfold text_eqb. destruct (list_eq_dec N.eq_dec a b); split; congruence.
Qed.

Lemma text_eqb_refl (a : text) : text_eqb a a = true.
Proof. now apply text_eqb_eq. Qed.

Lemma text_eqb_neq (a b : text) : text_eqb a b = false <-> a <> b.
Proof.
  unfold text_eqb. destruct (list_eq_dec N.eq_dec a b); split; congruence.
Qed.

Section FrameFacts.
Variable A : Type.
Variable nan : A.
Implicit Types (f : frame A) (k c : text) (v : A).

Lemma in_index_rows_at f k : in_index k f = false <-> rows_at k f = [].
Proof.
  unfold in_index, rows_at. induction (rows f) as [|x l IH]; simpl.
  - tauto.
  - destruct (has_label k x); simpl; [split; discriminate | exact IH].
Qed.

Lemma rows_at_loc_set f k c v :
  rows_at k (loc_set f k c v)
  = if in_index k f then List.map (cons (c, v)) (rows_at k f)
    else [[(c, v)]].
Proof.
  unfold loc_set, rows_at at 1. simpl. destruct (in_index k f) eqn:E.
  - clear E. unfold rows_at. induction (rows f) as [|x l IH]; simpl; auto.
    destruct (has_label k x) eqn:Ex; simpl.
    + change (has_label k (fst x, (c, v) :: snd x)) with (has_label k x).
      rewrite Ex. simpl. now rewrite IH.
    + now rewrite Ex.
  - apply in_index_rows_at in E. unfold rows_at in E.
    rewrite filter_app, map_app, E. simpl.
    unfold has_label. simpl. now rewrite text_eqb_refl.
Qed.

Lemma rows_at_loc_set_other f k k' c v :
  text_eqb k k' = false ->
  rows_at k (loc_set f k' c v) = rows_at k f.
Proof.
  intros Hk. unfold loc_set, rows_at. simpl.
  destruct (in_index k' f).
  - induction (rows f) as [|x l IH]; simpl; auto.
    destruct (has_label k' x) eqn:Ex; simpl.
    + assert (Hx : has_label k x = false).
      { unfold has_label in *. apply text_eqb_eq in Ex. now rewrite <- Ex. }
      change (has_label k (fst x, (c, v) :: snd x)) with (has_label k x).
      rewrite Hx. exact IH.
    + destruct (has_label k x); simpl; now rewrite IH.
  - rewrite filter_app, map_app. simpl. unfold has_label at 2. simpl.
    rewrite Hk. simpl. now rewrite app_nil_r.
Qed.

Lemma in_index_loc_set_other f k k' c v :
  text_eqb k k' = false ->
  in_index k (loc_set f k' c v) = in_index k f.
Proof.
  intros Hk. pose proof (@rows_at_loc_set_other f k k' c v Hk) as E.
  destruct (in_index k f) eqn:E1, (in_index k (loc_set f k' c v)) eqn:E2;
    auto.
  - apply in_index_rows_at in E2. rewrite E in E2.
    apply in_index_rows_at in E2. congruence.
  - apply in_index_rows_at in E1. rewrite <- E in E1.
    apply in_index_rows_at in E1. congruence.
Qed.

Lemma cell_is_set_same f k c v : cell_is nan (loc_set f k c v) k c v.
Proof.
  unfold cell_is. rewrite rows_at_loc_set. destruct (in_index k f) eqn:E.
  - split.
    + destruct (rows_at k f) eqn:Er; [|discriminate].
      apply in_index_rows_at in Er. congruence.
    + apply Forall_forall. intros r Hr. apply in_map_iff in Hr.
      destruct Hr as [r' [<- _]]. simpl. now rewrite text_eqb_refl.
  - split; [discriminate|]. constructor; [|constructor]. simpl.
    now rewrite text_eqb_refl.
Qed.

Lemma cell_is_set_other f k c c' v v' :
  text_eqb c c' = false ->
  cell_is nan f k c v -> cell_is nan (loc_set f k c' v') k c v.
Proof.
  intros Hc [Hne Hall]. unfold cell_is. rewrite rows_at_loc_set.
  destruct (in_index k f) eqn:E.
  - split.
    + destruct (rows_at k f); [congruence | discriminate].
    + apply Forall_forall. intros r Hr. apply in_map_iff in Hr.
      destruct Hr as [r' [<- Hr']]. simpl. rewrite Hc.
      rewrite Forall_forall in Hall. now apply Hall.
  - apply in_index_rows_at in E. congruence.
Qed.

End FrameFacts.

(** ** The matcher *)

Lemma plus_loop_some R p t (k : text -> option R) x :
  plus_loop p t k = Some x -> exists t', k t' = Some x.
Proof.
  induction t as [|a t IH]; simpl; [discriminate|].
  destruct (p a); [|discriminate].
  destruct (plus_loop p t k) eqn:E.
  - intros [= <-]. now apply IH.
  - intros Hk. now exists t.
Qed.

Lemma mtch_some R r :
  forall t c (k : text -> caps -> option R) x,
    mtch r t c k = Some x ->
    exists t' c',
      k t' c' = Some x
      /\ (forall n, cap n c <> None -> cap n c' <> None)
      /\ (forall n, sets n r = true -> cap n c' <> None).
Proof.
  induction r as [|p|p|r1 IH1|r1 IH1 r2 IH2|r1 IH1 r2 IH2|m r1 IH1];
    intros t c k x Hm; simpl in Hm.
  - exists t, c. repeat split; auto; discriminate.
  - destruct t as [|a t]; [discriminate|].
    destruct (p a); [|discriminate].
    exists t, c. repeat split; auto; discriminate.
  - apply plus_loop_some in Hm. destruct Hm as [t' Hk].
    exists t', c. repeat split; auto; discriminate.
  - destruct (mtch r1 t c k) eqn:E.
    + injection Hm as <-. apply IH1 in E.
      destruct E as (t' & c' & Hk & Hmono & _).
      exists t', c'. repeat split; auto; discriminate.
    + exists t, c. repeat split; auto; discriminate.
  - apply IH1 in Hm. destruct Hm as (t1 & c1 & Hm & Hmono1 & Hsets1).
    apply IH2 in Hm. destruct Hm as (t2 & c2 & Hk & Hmono2 & Hsets2).
    exists t2, c2. repeat split; auto.
    intros n Hn. simpl in Hn. apply orb_true_iff in Hn.
    destruct Hn; auto.
  - destruct (mtch r1 t c k) eqn:E.
    + injection Hm as <-. apply IH1 in E.
      destruct E as (t' & c' & Hk & Hmono & Hsets).
      exists t', c'. repeat split; auto.
      intros n Hn. simpl in Hn. apply andb_true_iff in Hn. now apply Hsets.
    + apply IH2 in Hm. destruct Hm as (t' & c' & Hk & Hmono & Hsets).
      exists t', c'. repeat split; auto.
      intros n Hn. simpl in Hn. apply andb_true_iff in Hn. now apply Hsets.
  - apply IH1 in Hm. destruct Hm as (t1 & c1 & Hk & Hmono & Hsets).
    exists t1, ((m, taken t t1) :: c1). repeat split; auto.
    + intros n Hn. simpl. destruct (Nat.eqb m n); [discriminate | auto].
    + intros n Hn. simpl in *. destruct (Nat.eqb m n); [discriminate | auto].
Qed.

Lemma re_search_sets r n :
  sets n r = true ->
  forall t m, re_search r t = Some m -> cap n (m_caps m) <> None.
Proof.
  intros Hn t. induction t as [|a t IH]; intros m; simpl;
    destruct (re_match r _) eqn:E.
  1, 3: intros [= <-]; unfold re_match in E; apply mtch_some in E;
    destruct E as (t' & c' & [= <-] & _ & Hsets); now apply Hsets.
  - discriminate.
  - apply IH.
Qed.

Lemma search_found r t : search r (Some t) = Ret (found r t).
Proof.
  unfold search, found.
  replace (match t with [] => [] | _ :: _ => t end) with t
    by now destruct t.
  destruct (re_search r t); [|reflexivity].
  unfold group. now destruct (Nat.leb 1 (ngroups r)).
Qed.

Lemma found_none r t : re_search r t = None -> found r t = None.
Proof. unfold found. now intros ->. Qed.

Lemma df_search_eq title col r t w :
  df_search title col r t w
  = (Ret tt, set_df (loc_set (df w) title col (of_opt (found r t))) w).
Proof. unfold df_search, mbind, lift. now rewrite search_found. Qed.

(** ** The field extractor *)

Lemma set_df_set_df x y w : set_df x (set_df y w) = set_df x w.
Proof. reflexivity. Qed.

Lemma covers_eq t : covers t = Ret (covers_found t).
Proof.
  unfold covers, covers_found. now destruct (re_search pat_covers t).
Qed.

Lemma covers_found_both t :
  (re_search pat_covers t = None /\ covers_found t = (None, None))
  \/ (exists a b, covers_found t = (Some a, Some b)).
Proof.
  unfold covers_found. destruct (re_search pat_covers t) as [m|] eqn:E.
  - right.
    assert (H1 : cap 1 (m_caps m) <> None)
      by (eapply re_search_sets; [|exact E]; reflexivity).
    assert (H2 : cap 2 (m_caps m) <> None)
      by (eapply re_search_sets; [|exact E]; reflexivity).
    destruct (cap 1 (m_caps m)) as [a|]; [|congruence].
    destruct (cap 2 (m_caps m)) as [b|]; [|congruence].
    now exists a, b.
  - now left.
Qed.

Section ExtractorFacts.
Context `{UnicodeDB}.

Lemma parse_basic_eq t title w :
  parse_basic t title w
  = (Ret tt,
     set_df
       (loc_set
          (loc_set
             (loc_set (df w) title (s "kWp") (of_opt (found pat_kWp t)))
             title (s "location") (of_opt (found pat_location t)))
          title (s "water_body_type")
          (of_opt (found pat_water_body_type t)))
       w).
Proof.
  unfold parse_basic, mbind. now rewrite !df_search_eq.
Qed.

Lemma parse_system_eq t title w :
  parse_system t title w
  = (Ret tt,
     set_df
       (loc_set
          (loc_set
             (loc_set
                (loc_set
                   (loc_set (df w) title (s "panel_number")
                      (of_opt (found pat_panel_number t)))
                   title (s "panel_type") (of_opt (found pat_panel_type t)))
                title (s "covers_pct") (of_opt (found pat_covers_pct t)))
             title (s "covers_panels") (of_opt (fst (covers_found t))))
          title (s "covers_total") (of_opt (snd (covers_found t))))
       w).
Proof.
  unfold parse_system, mbind, lift. rewrite !df_search_eq.
  now rewrite covers_eq.
Qed.

Lemma parse_advanced_eq t title w :
  parse_advanced t title w
  = (Ret tt,
     set_df
       (loc_set
          (loc_set (df w) title (s "max_depth")
             (of_opt (found pat_max_depth t)))
          title (s "level_variation") (of_opt (found pat_level_variation t)))
       w).
Proof.
  unfold parse_advanced, mbind. now rewrite !df_search_eq.
Qed.

Lemma parse_date_eq t title w :
  parse_date t title w
  = match interconnect_date (found pat_interconnect t) with
    | Ret d =>
        (Ret tt,
         set_df
           (loc_set
              (loc_set (df w) title (s "interconnection_date")
                 (PyDatetime d))
              title (s "construction_duration")
              (of_opt (found pat_construction t)))
           w)
    | Raise e => (Raise e, w)
    end.
Proof.
  unfold parse_date, mbind, lift. rewrite !search_found.
  now destruct (interconnect_date (found pat_interconnect t)).
Qed.

End ExtractorFacts.

Ltac splits := repeat match goal with |- _ /\ _ => split end.

(** The cell a [.loc] chain wrote last in a column. *)
Ltac cell_written :=
  repeat first
    [ apply cell_is_set_same
    | apply cell_is_set_other; [reflexivity|] ].

(** ** Examples of extraction *)

(** C5.  On the text ["installed on a reservoir, located in Japan.\n"] the
    extractor finds the water body ["a reservoir"], and a location that
    keeps the final period, ["Japan."]: the greedy [[^\n]+] of the location
    pattern takes the period before the optional [\.] is tried. *)
Theorem C5_location_keeps_final_period `{UnicodeDB} title w :
  let t := s "installed on a reservoir, located in Japan." ++ nl in
  let r := parse_basic t title w in
  fst r = Ret tt
  /\ cell_is PyNaN (df (snd r)) title (s "location") (PyStr (s "Japan."))
  /\ cell_is PyNaN (df (snd r)) title (s "water_body_type")
       (PyStr (s "a reservoir")).
Proof.
  intros t r. subst r. rewrite parse_basic_eq.
  assert (E1 : found pat_location t = Some (s "Japan."))
    by (vm_compute; reflexivity).
  assert (E2 : found pat_water_body_type t = Some (s "a reservoir"))
    by (vm_compute; reflexivity).
  rewrite E1, E2. simpl fst. simpl snd. simpl df.
  split; [reflexivity|]. split; cell_written.
Qed.

(** C7.  The phrase after "effective in" is read as month and year first
    and as a bare year when that fails: "effective in March 2019" gives
    the first of March 2019; for "effective in 2019" the month format
    fails and the year format gives the first of January 2019. *)
Theorem C7_interconnection_date `{UnicodeDB} title w :
  let march := {| year := 2019; month := 3; day := 1; hour := 0;
                  minute := 0; second := 0; microsecond := 0 |} in
  let january := {| year := 2019; month := 1; day := 1; hour := 0;
                    minute := 0; second := 0; microsecond := 0 |} in
  let r1 := parse_date (s "effective in March 2019") title w in
  let r2 := parse_date (s "effective in 2019") title w in
  (search pat_interconnect (Some (s "effective in March 2019"))
   = Ret (Some (s "March 2019"))
   /\ strptime_BY (Some (s "March 2019")) = Ret march
   /\ fst r1 = Ret tt
   /\ cell_is PyNaN (df (snd r1)) title (s "interconnection_date")
        (PyDatetime march))
  /\ (search pat_interconnect (Some (s "effective in 2019"))
      = Ret (Some (s "2019"))
      /\ strptime_BY (Some (s "2019")) = Raise ValueError
      /\ strptime_Y (Some (s "2019")) = Ret january
      /\ fst r2 = Ret tt
      /\ cell_is PyNaN (df (snd r2)) title (s "interconnection_date")
           (PyDatetime january)).
Proof.
  intros march january r1 r2. subst r1 r2. rewrite !parse_date_eq.
  assert (E1 : found pat_interconnect (s "effective in March 2019")
               = Some (s "March 2019")) by (vm_compute; reflexivity).
  assert (E2 : found pat_interconnect (s "effective in 2019")
               = Some (s "2019")) by (vm_compute; reflexivity).
  assert (D1 : strptime_BY (Some (s "March 2019")) = Ret march)
    by (vm_compute; reflexivity).
  assert (D2 : strptime_BY (Some (s "2019")) = Raise ValueError)
    by (vm_compute; reflexivity).
  assert (D3 : strptime_Y (Some (s "2019")) = Ret january)
    by (vm_compute; reflexivity).
  rewrite !search_found, E1, E2. unfold interconnect_date.
  rewrite D1, D2, D3. simpl.
  splits; try reflexivity; cell_written.
Qed.

(** C8.  For every text the two area tokens are extracted together: either
    the pattern has no match and both cells are [None], or both cells hold
    a string. *)
Theorem C8_covers_both_or_neither `{UnicodeDB} t title w :
  let d := df (snd (parse_system t title w)) in
  (re_search pat_covers t = None
   /\ covers t = Ret (None, None)
   /\ cell_is PyNaN d title (s "covers_panels") PyNone
   /\ cell_is PyNaN d title (s "covers_total") PyNone)
  \/ (exists a b,
        covers t = Ret (Some a, Some b)
        /\ cell_is PyNaN d title (s "covers_panels") (PyStr a)
        /\ cell_is PyNaN d title (s "covers_total") (PyStr b)).
Proof.
  intros d. subst d. rewrite parse_system_eq, covers_eq. simpl snd. simpl df.
  destruct (covers_found_both t) as [[Hn E]|(a & b & E)]; rewrite E.
  - left. splits; auto; cell_written.
  - right. exists a, b. splits; auto; cell_written.
Qed.

(** ** Texts without a match *)

Lemma covers_found_none t :
  re_search pat_covers t = None -> covers_found t = (None, None).
Proof. unfold covers_found. now intros ->. Qed.

(** C3.  When a text has no match for the pattern of a field other than
    the interconnection date, [search] returns [None] and raises nothing,
    and the function that fills the field returns normally with [None] in
    the field's cell; the only error [parse_date] can raise before it
    writes the construction duration is the one of the date.  When the text
    has no match for the date pattern, [parse_date] raises (a [TypeError]:
    [strptime] is given [None]) and writes nothing. *)
Theorem C3_no_match_gives_none `{UnicodeDB} txt title w :
  (forall fld,
     re_search (pattern_of fld) txt = None ->
     let r := extractor_of fld txt title w in
     search (pattern_of fld) (Some txt) = Ret None
     /\ (fld <> f_construction_duration ->
         fst r = Ret tt
         /\ cell_is PyNaN (df (snd r)) title (column_of fld) PyNone)
     /\ (fld = f_construction_duration ->
         match interconnect_date (found pat_interconnect txt) with
         | Ret _ =>
             fst r = Ret tt
             /\ cell_is PyNaN (df (snd r)) title (column_of fld) PyNone
         | Raise e => r = (Raise e, w)
         end))
  /\ (re_search pat_interconnect txt = None ->
      search pat_interconnect (Some txt) = Ret None
      /\ parse_date txt title w = (Raise TypeError, w)).
Proof.
  split.
  - intros fld Hnone r. subst r.
    split; [now rewrite search_found, found_none|].
    destruct fld; cbn [pattern_of] in Hnone;
      cbn [extractor_of column_of];
      (split; [intros Hne | intros Hc; try discriminate Hc]);
      try (now exfalso; apply Hne);
      rewrite ?parse_basic_eq, ?parse_system_eq, ?parse_advanced_eq,
        ?parse_date_eq;
      rewrite ?(covers_found_none _ Hnone), ?(found_none _ _ Hnone);
      cbn [fst snd df set_df];
      try (split; [reflexivity | cell_written]).
    destruct (interconnect_date (found pat_interconnect txt));
        [|reflexivity].
      simpl. split; [reflexivity | cell_written].
  - intros Hnone. rewrite search_found, parse_date_eq.
    now rewrite (found_none _ _ Hnone).
Qed.

(** A text with a date and nothing else: no capacity is found, and no
    date in the empty text. *)
Lemma C3_no_match_gives_none_witness :
  let w := start [] None in
  let r := @parse_basic ascii_only (s "effective in 2019") (s "A-1") w in
  (fst r = Ret tt
   /\ cell_is PyNaN (df (snd r)) (s "A-1") (s "kWp") PyNone)
  /\ @parse_date ascii_only (s "no date here") (s "A-1") w
     = (Raise TypeError, w).
Proof.
  intros w r.
  destruct (@C3_no_match_gives_none ascii_only (s "effective in 2019")
              (s "A-1") w) as [Hf _].
  destruct (@C3_no_match_gives_none ascii_only (s "no date here")
              (s "A-1") w) as [_ Hd].
  split.
  - destruct (Hf f_kWp) as (_ & Hk & _); [reflexivity|].
    apply Hk. discriminate.
  - apply Hd. reflexivity.
Defined.

(** C10.  When the text built from the paragraphs of a page is empty,
    [parse_page] returns normally and leaves the state as it was: no
    extractor runs, not even [parse_date], which raises on the empty
    text. *)
Theorem C10_empty_text_sets_nothing `{UnicodeDB} `{Lxml}
  (pg : page) title w :
  page_text (p_texts pg) = [] ->
  parse_page pg title w = (Ret tt, w)
  /\ parse_date (page_text (p_texts pg)) title w = (Raise TypeError, w).
Proof.
  intros Hempty. unfold parse_page. rewrite Hempty. split; [reflexivity|].
  now rewrite parse_date_eq.
Qed.

(** A page whose only paragraph is a non-breaking space and a space. *)
Lemma C10_empty_text_sets_nothing_witness :
  let w := start [] None in
  let pg : @page pages := [160%N; 32%N] in
  page_text (@p_texts pages pg) = []
  /\ @parse_page ascii_only pages pg (s "A-1") w = (Ret tt, w).
Proof.
  intros w pg. split; [reflexivity|].
  apply (@C10_empty_text_sets_nothing ascii_only pages pg (s "A-1") w).
  reflexivity.
Defined.

(** ** The fetcher *)

Section FetchFacts.
Context `{Lxml} `{Outside}.

Lemma fetch_requests target w :
  requests (snd (fetch (Some target) w)) = requests w ++ [resolve target].
Proof.
  unfold fetch, mbind, modify, lift, mraise.
  destruct (server (resolve target)) as [status_code content].
  now destruct (N.eqb status_code 200).
Qed.

(** A target that the test of [fetch] does not take for an address of the
    site is asked for at the site root, one slash, and the target without
    the slash it may begin with: a slash is added only when the target
    brings none. *)
Lemma resolve_of_refused_target target w :
  re_match pat_site target = None ->
  resolve target = site_root ++ s "/" ++ without_leading_slash target
  /\ requests (snd (fetch (Some target) w))
     = requests w ++ [site_root ++ s "/" ++ without_leading_slash target].
Proof.
  intros Hrel.
  assert (E : resolve target
              = site_root ++ s "/" ++ without_leading_slash target).
  { unfold resolve. rewrite Hrel. f_equal.
    destruct target as [|c p]; [reflexivity|].
    unfold re_match, pat_slash, without_leading_slash. simpl.
    destruct c as [|q]; [reflexivity|].
    destruct (Pos.eqb_spec 47 q) as [<-|]; reflexivity. }
  split; [exact E|]. now rewrite fetch_requests, E.
Qed.

End FetchFacts.

(** C9.  Two targets that are no addresses of the site and are not asked
    for at the site root, one slash and the path.  The test of [fetch] is
    the pattern [^http://www.ciel-et-terre.net] with its dots unescaped, so
    an address of another host that differs from the site's at the dots
    passes for one of the site and is requested as it is.  The test for
    the slash looks at the first character only, so a target that begins
    with two slashes is asked for with both.  A path with one slash or with
    none is asked for with one. *)
Theorem C9_targets_not_put_under_the_site_root :
  let other_host := s "http://wwwXciel-et-terreYnet/umenoki" in
  let two_slashes := s "//umenoki" in
  is_site_address other_host = false
  /\ resolve other_host = other_host
  /\ resolve other_host <> site_root ++ s "/" ++ other_host
  /\ requests
       (snd (@fetch pages march_5 (Some other_host) (start [] None)))
     = [other_host]
  /\ is_site_address two_slashes = false
  /\ resolve two_slashes = s "http://www.ciel-et-terre.net//umenoki"
  /\ resolve (s "/umenoki") = s "http://www.ciel-et-terre.net/umenoki"
  /\ resolve (s "umenoki") = s "http://www.ciel-et-terre.net/umenoki".
Proof.
  cbv zeta. splits; try reflexivity. discriminate.
Qed.

(** ** The coercions of the dataset builder *)

(** What the top-level copy does with a decimal cell: [None] stays
    [None], a string is read as a float after its commas became
    periods, and a string that is no number raises. *)
Lemma V1_make_decimal_spec `{UnicodeDB} :
  V1.make_decimal PyNone = Ret PyNone
  /\ (forall t, t <> [] ->
        V1.make_decimal (PyStr t) = float_of_text (replace 44%N 46%N t))
  /\ V1.make_decimal (PyStr (s "3,2")) = Ret (PyFloat (16 # 5))
  /\ V1.make_decimal (PyStr (s "abc")) = Raise ValueError.
Proof.
  splits; try reflexivity.
  intros [|c t] Ht; [congruence | reflexivity].
Qed.

(** C4.  In the copy under [ciel_et_terre/], [make_decimal] tests
    [s is str]; no string is the class [str], so every string, ["3,2"] and
    malformed text alike, gives [None] and nothing is parsed or raised.
    The top-level copy parses the text: ["3,2"] gives 3.2 and malformed
    text raises. *)
Theorem C4_V2_make_decimal_gives_none `{UnicodeDB} :
  (forall t, V2.make_decimal (PyStr t) = Ret PyNone)
  /\ V2.make_decimal (PyStr (s "3,2")) = Ret PyNone
  /\ V1.make_decimal (PyStr (s "3,2")) = Ret (PyFloat (16 # 5))
  /\ V2.make_decimal (PyStr (s "abc")) = Ret PyNone
  /\ V1.make_decimal (PyStr (s "abc")) = Raise ValueError.
Proof. splits; reflexivity. Qed.

(** C6.  In the top-level copy both coercions are a bare [int(s)]: an
    absent capacity raises as an absent panel count does, [TypeError] for
    [None] and [ValueError] for NaN, and no [0] stands in for it.  The
    [else 0] is in the copy under [ciel_et_terre/] only, whose next line,
    the one for the panel count, is not an expression. *)
Theorem C6_absent_capacity_raises_in_top_level_copy `{UnicodeDB} :
  V1.coerce_kWp PyNone = Raise TypeError
  /\ V1.coerce_kWp PyNaN = Raise ValueError
  /\ V1.coerce_panel_number PyNone = Raise TypeError
  /\ V1.coerce_panel_number PyNaN = Raise ValueError
  /\ V2.coerce_kWp PyNone = Ret (PyInt 0)
  /\ V2.coerce_kWp PyNaN = Ret (PyInt 0).
Proof. splits; reflexivity. Qed.

(** ** The cache decision *)

Section CacheFacts.
Context `{UnicodeDB} `{Lxml} `{Outside}.
Local Open Scope M_scope.

Lemma world_eta w : set_df (df w) w = w.
Proof. now destruct w. Qed.

Lemma parse_page_df pg title w :
  exists d, snd (parse_page pg title w) = set_df d w.
Proof.
  unfold parse_page. destruct (page_text (p_texts pg)) as [|c t].
  - exists (df w). simpl. now rewrite world_eta.
  - unfold mbind.
    rewrite parse_basic_eq; cbv beta iota.
    rewrite parse_system_eq; cbv beta iota.
    rewrite parse_advanced_eq; cbv beta iota.
    rewrite parse_date_eq.
    destruct (interconnect_date _); eexists; reflexivity.
Qed.

Lemma parse_cached_df title path w :
  exists d, snd (parse_cached title path w) = set_df d w.
Proof.
  unfold parse_cached, mbind, read_file, lift.
  destruct (assoc path (files w)) as [content|].
  - destruct (fromstring content) as [pg|e].
    + apply parse_page_df.
    + exists (df w). simpl. now rewrite world_eta.
  - exists (df w). simpl. now rewrite world_eta.
Qed.

Lemma parse_cached_missing title path w :
  file_exists path w = false ->
  parse_cached title path w = (Raise FileNotFoundError, w).
Proof.
  unfold file_exists, parse_cached, mbind, read_file.
  now destruct (assoc path (files w)).
Qed.

Lemma store_page_requests pg path w :
  requests (snd (store_page pg path w)) = requests w.
Proof.
  unfold store_page, mbind, write_file, modify, mraise.
  now destruct (content_article pg).
Qed.

Lemma V1_download_requests item href path w :
  li_anchor item = Some (Some href) ->
  requests (snd (V1.download_page item path w))
  = requests w ++ [resolve href].
Proof.
  intros Ha. unfold V1.download_page, V1.get_page, mbind, mtry.
  rewrite Ha. pose proof (fetch_requests href w) as Hf.
  destruct (fetch (Some href) w) as [[pg|e] w'].
  - now rewrite store_page_requests.
  - now destruct (exn_eqb e IndexError).
Qed.

Lemma V2_download_requests href path w :
  requests (snd (V2.download_page (Some href) path w))
  = requests w ++ [resolve href].
Proof.
  unfold V2.download_page, mbind.
  pose proof (fetch_requests href w) as Hf.
  destruct (fetch (Some href) w) as [[pg|e] w']; [|assumption].
  now rewrite store_page_requests.
Qed.

(** The three branches of the decision. *)

Lemma ensure_cached_present dl title path w :
  file_exists path w = true ->
  ensure_cached dl title path w = (Ret tt, w).
Proof.
  intros He. unfold ensure_cached, mbind, path_exists, gets.
  now rewrite He.
Qed.

Lemma ensure_cached_unknown dl title path w :
  file_exists path w = false ->
  in_index title (last_downloaded w) = false ->
  ensure_cached dl title path w = dl path w.
Proof.
  intros He Hk. unfold ensure_cached, mbind, path_exists, gets.
  rewrite He. cbn [negb]. now rewrite Hk.
Qed.

Lemma ensure_cached_known dl title path w cell recency :
  file_exists path w = false ->
  in_index title (last_downloaded w) = true ->
  loc_get LNaN (last_downloaded w) title (s "last_downloaded") = Ret cell ->
  strptime_Ym (str_of cell) = Ret recency ->
  ensure_cached dl title path w
  = if td_gt (dt_sub now recency) (mk_timedelta 30 0 0)
    then dl path w
    else (Ret tt, w).
Proof.
  intros He Hk Hc Hr. unfold ensure_cached, mbind, path_exists, gets, lift.
  rewrite He. cbn [negb]. rewrite Hk. cbv beta iota. rewrite Hc.
  cbv beta iota. rewrite Hr. cbv beta iota. now destruct (td_gt _ _).
Qed.

(** A download followed by the parse of the file asks the server once. *)
Lemma fetched_then_parsed (dl : text -> M unit) title path url w :
  requests (snd (dl path w)) = requests w ++ [url] ->
  requests (snd ((dl path ;;; parse_cached title path) w))
  = requests w ++ [url].
Proof.
  intros Hd. unfold mbind. destruct (dl path w) as [[[]|e] w'];
    simpl in *; [|assumption].
  destruct (parse_cached_df title path w') as [d ->]. exact Hd.
Qed.

(** The loop body from the cache decision on, for either copy. *)
Lemma cached_step (dl : text -> M unit) title path url w :
  (forall w', requests (snd (dl path w')) = requests w' ++ [url]) ->
  let r := (ensure_cached dl title path ;;; parse_cached title path) w in
  (file_exists path w = true -> r = parse_cached title path w)
  /\ (file_exists path w = false ->
      in_index title (last_downloaded w) = true ->
      forall cell recency,
        loc_get LNaN (last_downloaded w) title (s "last_downloaded")
        = Ret cell ->
        strptime_Ym (str_of cell) = Ret recency ->
        if td_gt (dt_sub now recency) (mk_timedelta 30 0 0)
        then requests (snd r) = requests w ++ [url]
        else r = (Raise FileNotFoundError, w))
  /\ (file_exists path w = false ->
      in_index title (last_downloaded w) = false ->
      requests (snd r) = requests w ++ [url]).
Proof.
  intros Hdl r. subst r. splits.
  - intros He. unfold mbind at 1. now rewrite ensure_cached_present.
  - intros He Hk cell recency Hc Hr.
    pose proof (ensure_cached_known dl _ _ _ He Hk Hc Hr) as E.
    destruct (td_gt _ _).
    + unfold mbind at 1. rewrite E. now apply fetched_then_parsed.
    + unfold mbind at 1. rewrite E. now apply parse_cached_missing.
  - intros He Hk. unfold mbind at 1. rewrite ensure_cached_unknown; auto.
    now apply fetched_then_parsed.
Qed.

End CacheFacts.

Section CacheDecision.
Context `{UnicodeDB} `{Lxml} `{Outside}.
Local Open Scope M_scope.

Lemma V1_project_step_eq item name kwp w :
  get_name_kwp item = Ret (name, kwp) ->
  let title := title_of name kwp in
  V1.project_step item w
  = (ensure_cached (V1.download_page item) title (file_path_of title)
     ;;; parse_cached title (file_path_of title)) w.
Proof.
  intros Hn title. unfold V1.project_step, mbind at 1, lift. now rewrite Hn.
Qed.

Lemma V2_project_step_eq item name kwp href w :
  get_name_kwp item = Ret (name, kwp) ->
  li_anchor item = Some (Some href) ->
  let title := title_of name kwp in
  V2.project_step item w
  = (ensure_cached (V2.download_page (Some href)) title (file_path_of title)
     ;;; parse_cached title (file_path_of title))
      (set_df (loc_set (df w) title (s "source") (PyStr href)) w).
Proof.
  intros Hn Ha title. unfold V2.project_step, V2.get_link, mbind at 1, lift.
  now rewrite Hn, Ha.
Qed.

(** The loop body of either copy, for a project whose list item has a
    title and a link.  When the local file exists, the server is not asked
    and the file is what gets parsed.  When it does not exist and the title
    is in the ledger with a cell that [strptime(..., '%Y-%m')] reads as
    [recency], the server is asked exactly when
    [now - recency > timedelta(days=30)]; otherwise nothing is fetched, no
    file appears and reading it raises [FileNotFoundError].  When the
    title is not in the ledger, the server is asked. *)
Lemma cache_decision_branches item name kwp href w r :
  get_name_kwp item = Ret (name, kwp) ->
  li_anchor item = Some (Some href) ->
  r = V1.project_step item w \/ r = V2.project_step item w ->
  let title := title_of name kwp in
  let file_path := file_path_of title in
  (file_exists file_path w = true ->
   requests (snd r) = requests w
   /\ files (snd r) = files w
   /\ exists w1, files w1 = files w /\ r = parse_cached title file_path w1)
  /\ (file_exists file_path w = false ->
      in_index title (last_downloaded w) = true ->
      forall cell recency,
        loc_get LNaN (last_downloaded w) title (s "last_downloaded")
        = Ret cell ->
        strptime_Ym (str_of cell) = Ret recency ->
        if td_gt (dt_sub now recency) (mk_timedelta 30 0 0)
        then requests (snd r) = requests w ++ [resolve href]
        else fst r = Raise FileNotFoundError
             /\ requests (snd r) = requests w
             /\ files (snd r) = files w)
  /\ (file_exists file_path w = false ->
      in_index title (last_downloaded w) = false ->
      requests (snd r) = requests w ++ [resolve href]).
Proof.
  intros Hn Ha Hr title file_path.
  assert (Hstep : exists dl w1,
            r = (ensure_cached dl title file_path
                 ;;; parse_cached title file_path) w1
            /\ (forall w', requests (snd (dl file_path w'))
                           = requests w' ++ [resolve href])
            /\ files w1 = files w
            /\ requests w1 = requests w
            /\ last_downloaded w1 = last_downloaded w).
  { destruct Hr as [-> | ->].
    - exists (V1.download_page item), w. splits; auto.
      + now apply V1_project_step_eq.
      + intros w'. now apply V1_download_requests.
    - eexists (V2.download_page (Some href)), _. splits.
      + now apply V2_project_step_eq.
      + intros w'. apply V2_download_requests.
      + reflexivity.
      + reflexivity.
      + reflexivity. }
  destruct Hstep as (dl & w1 & -> & Hdl & Hf & Hq & Hl).
  assert (He : file_exists file_path w1 = file_exists file_path w)
    by (unfold file_exists; now rewrite Hf).
  destruct (@cached_step _ _ _ dl title file_path (resolve href) w1 Hdl)
    as (S1 & S2 & S3).
  rewrite He, Hl, Hq in *. splits.
  - intros Hp. rewrite (S1 Hp).
    destruct (parse_cached_df title file_path w1) as [d E].
    rewrite E. simpl. splits; auto. now exists w1.
  - intros Hp Hk cell recency Hc Ht. specialize (S2 Hp Hk _ _ Hc Ht).
    destruct (td_gt _ _); [exact S2|]. rewrite S2. simpl. auto.
  - intros Hp Hk. exact (S3 Hp Hk).
Qed.

End CacheDecision.

(** C1.  The project is in the ledger with the date 2019-01-05, written
    the way the script writes its dates, there is no local file, and today
    is the 5th of March 2019, 59 days later.  The recorded date is more
    than 30 days old, yet neither copy asks the server: [strptime] is
    given the format ['%Y-%m'], which rejects a date with its day, and the
    loop body raises [ValueError] with no request and no file.  With the
    month alone in the ledger, ["2019-01"], the page is fetched. *)
Theorem C1_dated_ledger_entry_is_not_refreshed :
  let w := start [] (Some (ledger_with (s "2019-01-05"))) in
  let recorded :=
    {| year := 2019; month := 1; day := 5; hour := 0; minute := 0;
       second := 0; microsecond := 0 |} in
  let V1_step := @V1.project_step ascii_only pages march_5 umenoki in
  let V2_step := @V2.project_step ascii_only pages march_5 umenoki in
  file_exists umenoki_path w = false
  /\ in_index umenoki_title (last_downloaded w) = true
  /\ loc_get LNaN (last_downloaded w) umenoki_title (s "last_downloaded")
     = Ret (Scalar (LStr (s "2019-01-05")))
  /\ td_days (dt_sub (@now march_5) recorded) = 59
  /\ td_gt (dt_sub (@now march_5) recorded) (mk_timedelta 30 0 0) = true
  /\ V1_step w = (Raise ValueError, w)
  /\ fst (V2_step w) = Raise ValueError
  /\ requests (snd (V2_step w)) = []
  /\ files (snd (V2_step w)) = []
  /\ requests (snd (V1_step (start [] (Some (ledger_with (s "2019-01"))))))
     = [umenoki_url]
  /\ requests (snd (V2_step (start [] (Some (ledger_with (s "2019-01"))))))
     = [umenoki_url].
Proof.
  cbv zeta. splits; vm_compute; reflexivity.
Qed.

(** ** The ledger across two runs *)

Lemma title_not_path title : text_eqb title (file_path_of title) = false.
Proof.
  apply text_eqb_neq. intros E. apply (f_equal (@List.length char)) in E.
  unfold file_path_of in E. rewrite !length_app in E. simpl in E. lia.
Qed.

Lemma in_index_reload f k : in_index k (read_csv (to_csv f)) = in_index k f.
Proof.
  unfold in_index, read_csv, to_csv. simpl.
  induction (rows f) as [|x l IH]; simpl; [reflexivity|].
  now rewrite IH.
Qed.

(** Whatever the state, storing a page under the path of a project leaves
    the project's title out of the ledger and of the ledger file, if it
    was not there. *)
Lemma store_page_leaves_title_unknown `{Lxml} `{Outside} pg title w :
  in_index title (last_downloaded w) = false ->
  let r := store_page pg (file_path_of title) w in
  in_index title (last_downloaded (snd r)) = false
  /\ (fst r = Ret tt ->
      exists c, ledger_file (snd r) = Some c
                /\ in_index title (read_csv c) = false).
Proof.
  intros Hk r. subst r.
  unfold store_page, mbind, write_file, modify, mraise.
  destruct (content_article pg); simpl.
  - rewrite in_index_loc_set_other by apply title_not_path.
    split; [assumption|]. intros _. eexists. split; [reflexivity|].
    rewrite in_index_reload.
    now rewrite in_index_loc_set_other by apply title_not_path.
  - split; [assumption | discriminate].
Qed.

(** C2.  A first run of [get_projects] on the 5th of March 2019, with no
    ledger and no local file, fetches the index page and the page of its
    one project and writes the ledger.  The date survives the reload, but
    under the file path and in the column [last_download]: the title is
    not in the reloaded ledger.  A second run on the 6th, the index page
    kept and the project's file gone, asks the server for the project
    again.  The same happens in both copies; and the date as written,
    ["2019-03-05"], is not even accepted by [strptime(..., '%Y-%m')]. *)
Theorem C2_ledger_date_does_not_suppress :
  let run get_projects (O : Outside) w :=
    get_projects ascii_only pages O w in
  let first get_projects := run get_projects march_5 (start [] None) in
  let reloaded get_projects :=
    start [(main_path, index_page)]
      (ledger_file (snd (first get_projects))) in
  let second get_projects :=
    run get_projects march_6 (reloaded get_projects) in
  let redownloaded get_projects :=
    fst (first get_projects) = Ret tt
    /\ requests (snd (first get_projects)) = [index_url; umenoki_url]
    /\ loc_get LNaN (last_downloaded (reloaded get_projects)) umenoki_path
         (s "last_download")
       = Ret (Scalar (LStr (s "2019-03-05")))
    /\ in_index umenoki_title (last_downloaded (reloaded get_projects))
       = false
    /\ fst (second get_projects) = Ret tt
    /\ requests (snd (second get_projects)) = [umenoki_url] in
  redownloaded (@V1.get_projects)
  /\ redownloaded (@V2.get_projects)
  /\ @strptime_Ym ascii_only (Some (s "2019-03-05")) = Raise ValueError.
Proof.
  cbv zeta. splits; vm_compute; reflexivity.
Qed.

(** * The rest of the script *)

(** ** The matcher is sound *)

Lemma taken_app (v t' : text) : taken (v ++ t') t' = v.
Proof.
  unfold taken. rewrite length_app.
  replace (List.length v + List.length t' - List.length t')%nat
    with (List.length v) by lia.
  rewrite firstn_app, firstn_all, Nat.sub_diag. simpl. apply app_nil_r.
Qed.

Lemma plus_loop_sound R p t (k : text -> option R) x :
  plus_loop p t k = Some x ->
  exists v t',
    t = v ++ t' /\ v <> [] /\ forallb p v = true /\ k t' = Some x.
Proof.
  induction t as [|a t IH]; simpl; [discriminate|].
  destruct (p a) eqn:Ea; [|discriminate].
  destruct (plus_loop p t k) eqn:E.
  - intros [= <-]. destruct (IH eq_refl) as (v & t' & -> & _ & Hv & Hk).
    exists (a :: v), t'. simpl. rewrite Ea, Hv. splits; auto. discriminate.
  - intros Hk. exists [a], t. simpl. rewrite Ea. splits; auto. discriminate.
Qed.

(** Whenever the matcher goes on with its continuation, the pattern has
    matched the text in front of the rest it hands over, with the groups
    it adds. *)
Lemma mtch_sound R r :
  forall t c (k : text -> caps -> option R) x,
    mtch r t c k = Some x ->
    exists v g t',
      t = v ++ t' /\ matches r v g /\ k t' (g ++ c) = Some x.
Proof.
  induction r as [|p|p|r1 IH1|r1 IH1 r2 IH2|r1 IH1 r2 IH2|n r1 IH1];
    intros t c k x Hm; simpl in Hm.
  - exists [], [], t. splits; auto. constructor.
  - destruct t as [|a t]; [discriminate|].
    destruct (p a) eqn:Ea; [|discriminate].
    exists [a], [], t. splits; auto. now constructor.
  - apply plus_loop_sound in Hm.
    destruct Hm as (v & t' & -> & Hne & Hv & Hk).
    exists v, [], t'. splits; auto. now constructor.
  - destruct (mtch r1 t c k) eqn:E.
    + injection Hm as <-. apply IH1 in E.
      destruct E as (v & g & t' & -> & Hv & Hk).
      exists v, g, t'. splits; auto. now apply M_Opt_some.
    + exists [], [], t. splits; auto. apply M_Opt_none.
  - apply IH1 in Hm. destruct Hm as (v1 & g1 & t1 & -> & H1 & Hm).
    apply IH2 in Hm. destruct Hm as (v2 & g2 & t2 & -> & H2 & Hk).
    exists (v1 ++ v2), (g2 ++ g1), t2. splits.
    + now rewrite app_assoc.
    + now constructor.
    + now rewrite <- app_assoc.
  - destruct (mtch r1 t c k) eqn:E.
    + injection Hm as <-. apply IH1 in E.
      destruct E as (v & g & t' & -> & Hv & Hk).
      exists v, g, t'. splits; auto. now apply M_Alt_left.
    + apply IH2 in Hm. destruct Hm as (v & g & t' & -> & Hv & Hk).
      exists v, g, t'. splits; auto. now apply M_Alt_right.
  - apply IH1 in Hm. destruct Hm as (v & g & t' & -> & Hv & Hk).
    rewrite taken_app in Hk.
    exists v, ((n, v) :: g), t'. splits; auto. now constructor.
Qed.

Lemma re_match_sound r t m :
  re_match r t = Some m ->
  exists v, t = v ++ m_rest m /\ matches r v (m_caps m).
Proof.
  unfold re_match. intros Hm. apply mtch_sound in Hm.
  destruct Hm as (v & g & t' & -> & Hv & [= <-]). simpl.
  rewrite app_nil_r. now exists v.
Qed.

Lemma re_search_sound r t m :
  re_search r t = Some m ->
  exists before v,
    t = before ++ v ++ m_rest m /\ matches r v (m_caps m).
Proof.
  induction t as [|a t IH]; simpl; destruct (re_match r _) eqn:E.
  1, 3: intros [= <-]; apply re_match_sound in E;
    destruct E as (v & Ht & Hv); now exists [], v.
  - discriminate.
  - intros Hs. destruct (IH Hs) as (before & v & -> & Hv).
    now exists (a :: before), v.
Qed.

Lemma cap_app n (g1 g2 : caps) :
  cap n (g1 ++ g2)
  = match cap n g1 with Some x => Some x | None => cap n g2 end.
Proof.
  induction g1 as [|[m x] g1 IH]; simpl; [reflexivity|].
  now destruct (Nat.eqb m n).
Qed.

Lemma occurs_in_refl t : occurs_in t t.
Proof. exists [], []. now rewrite app_nil_r. Qed.

Lemma occurs_in_app_l x a b : occurs_in x a -> occurs_in x (a ++ b).
Proof.
  intros (p & q & ->). exists p, (q ++ b). now rewrite <- !app_assoc.
Qed.

Lemma occurs_in_app_r x a b : occurs_in x b -> occurs_in x (a ++ b).
Proof.
  intros (p & q & ->). exists (a ++ p), q. now rewrite <- !app_assoc.
Qed.

Lemma matches_groups_occur r v g :
  matches r v g -> forall n x, cap n g = Some x -> occurs_in x v.
Proof.
  induction 1 as [| | | | |r1 r2 v1 v2 g1 g2 _ IH1 _ IH2| | |m r v g _ IH];
    intros n x Hc; simpl in Hc; try discriminate; eauto.
  - rewrite cap_app in Hc. destruct (cap n g2) eqn:E.
    + injection Hc as <-. apply occurs_in_app_r. eauto.
    + apply occurs_in_app_l. eauto.
  - destruct (Nat.eqb m n).
    + injection Hc as <-. apply occurs_in_refl.
    + eauto.
Qed.

(** X1.  Whatever [search] returns for a pattern and a text is a piece of
    that text: the extractor never makes text up. *)
Theorem search_result_occurs_in_text r t x :
  search r (Some t) = Ret (Some x) -> occurs_in x t.
Proof.
  intros Hs. rewrite search_found in Hs. injection Hs as Hf.
  unfold found in Hf.
  destruct (re_search r t) as [m|] eqn:E; [|discriminate].
  destruct (Nat.leb 1 (ngroups r)); [|discriminate].
  apply re_search_sound in E. destruct E as (before & v & -> & Hv).
  apply occurs_in_app_r, occurs_in_app_l.
  eapply matches_groups_occur; eassumption.
Qed.

Lemma search_result_occurs_in_text_witness :
  occurs_in (s "Japan.")
    (s "installed on a reservoir, located in Japan." ++ nl).
Proof.
  apply (@search_result_occurs_in_text pat_location
           (s "installed on a reservoir, located in Japan." ++ nl)
           (s "Japan.")).
  reflexivity.
Defined.

(** ** What the patterns capture *)

Lemma matches_lit_text x v g : matches (lit_text x) v g -> v = x /\ g = [].
Proof.
  revert v g. induction x as [|c x IH]; intros v g Hm; simpl in Hm.
  - now inversion Hm.
  - inversion Hm as [| | | | |r1 r2 v1 v2 g1 g2 H1 H2| | |]; subst.
    inversion H1; subst. apply IH in H2. destruct H2 as [-> ->].
    match goal with E : N.eqb c _ = true |- _ => apply N.eqb_eq in E end.
    now subst.
Qed.

(** Taking a match apart, one constructor of the pattern at a time. *)
Ltac invert_matches :=
  repeat match goal with
  | H : matches (lit _) _ _ |- _ =>
      apply matches_lit_text in H; destruct H as [? ?]; subst
  | H : matches (lit_text _) _ _ |- _ =>
      apply matches_lit_text in H; destruct H as [? ?]; subst
  | H : matches (Cat _ _) _ _ |- _ => inversion H; subst; clear H
  | H : matches (Grp _ _) _ _ |- _ => inversion H; subst; clear H
  | H : matches (Plus _) _ _ |- _ => inversion H; subst; clear H
  | H : matches (Alt _ _) _ _ |- _ => inversion H; subst; clear H
  | H : matches (Opt _) _ _ |- _ => inversion H; subst; clear H
  | H : matches (Chr _) _ _ |- _ => inversion H; subst; clear H
  | H : matches Eps _ _ |- _ => inversion H; subst; clear H
  end.

Lemma plus_loop_greedy R p v rest (k : text -> option R) x :
  forallb p v = true -> v <> [] ->
  match rest with [] => True | c :: _ => p c = false end ->
  k rest = Some x ->
  plus_loop p (v ++ rest) k = Some x.
Proof.
  intros Hv Hne Hrest Hk. induction v as [|a v IH]; [congruence|].
  simpl in *. apply andb_true_iff in Hv. destruct Hv as [-> Hv].
  destruct v as [|b v].
  - simpl. destruct rest as [|c rest]; simpl; [assumption|].
    now rewrite Hrest.
  - rewrite IH; auto. discriminate.
Qed.

Section DigitFacts.
Context `{UnicodeDB}.

Lemma is_digit_value c : is_digit c = true -> exists v, digit_value c = Some v.
Proof.
  unfold is_digit. destruct (digit_value c) as [v|]; [|discriminate].
  now exists v.
Qed.

Lemma sign_of_digit c t : is_digit c = true -> sign (c :: t) = (false, c :: t).
Proof.
  intros Hc.
  assert (H43 : c <> 43%N) by (intros ->; discriminate Hc).
  assert (H45 : c <> 45%N) by (intros ->; discriminate Hc).
  clear Hc. unfold sign. destruct c as [|p]; [reflexivity|].
  do 7 (try (destruct p as [p|p|]; try reflexivity)); congruence.
Qed.

Lemma digit_part_loop_all t :
  forallb is_digit t = true ->
  forall acc n,
    exists m,
      digit_part_loop t acc n
      = (fold_left
           (fun a c => match digit_value c with
                       | Some v => a * 10 + v
                       | None => a
                       end)%N t acc, m, []).
Proof.
  induction t as [|c t IH]; intros Hall acc n; simpl.
  - now exists n.
  - simpl in Hall. apply andb_true_iff in Hall. destruct Hall as [Hc Hall].
    destruct (is_digit_value c Hc) as [v ->]. apply IH. assumption.
Qed.

Lemma number_lstrip_no_space c t :
  is_space c = false -> number_lstrip (c :: t) = c :: t.
Proof.
  intros Hc. simpl. unfold is_number_space. now rewrite Hc.
Qed.

Lemma number_strip_no_space t :
  forallb (fun c => negb (is_space c)) t = true -> number_strip t = t.
Proof.
  intros Hall. unfold number_strip. destruct t as [|c t]; [reflexivity|].
  assert (Hrev : forallb (fun c => negb (is_space c)) (rev (c :: t)) = true).
  { apply forallb_forall. intros a Ha. apply in_rev in Ha.
    rewrite forallb_forall in Hall. now apply Hall. }
  simpl in Hall. apply andb_true_iff in Hall. destruct Hall as [Hc _].
  apply negb_true_iff in Hc. rewrite number_lstrip_no_space by assumption.
  destruct (rev (c :: t)) as [|a l] eqn:E.
  - apply (f_equal (@List.length char)) in E. rewrite length_rev in E.
    discriminate E.
  - simpl in Hrev. apply andb_true_iff in Hrev. destruct Hrev as [Ha _].
    apply negb_true_iff in Ha. rewrite number_lstrip_no_space by assumption.
    now rewrite <- E, rev_involutive.
Qed.

(** [int] reads a string of digits as the number it stands for. *)
Lemma int_of_digits d :
  digits_are_not_spaces ->
  forallb is_digit d = true -> d <> [] ->
  int_of_text d = Ret (Z.of_N (number_of d)).
Proof.
  intros Hsane Hall Hne. unfold int_of_text.
  rewrite number_strip_no_space.
  2:{ apply forallb_forall. intros c Hc. rewrite forallb_forall in Hall.
      apply negb_true_iff, Hsane, Hall, Hc. }
  destruct d as [|c d]; [congruence|]. simpl in Hall.
  apply andb_true_iff in Hall. destruct Hall as [Hc Hall].
  rewrite sign_of_digit by assumption. unfold digit_part, number_of. simpl.
  destruct (is_digit_value c Hc) as [v ->].
  destruct (digit_part_loop_all d Hall v 1) as [m ->]. reflexivity.
Qed.

(** The capture of a pattern that is a group of digits and a literal. *)
Lemma found_digits lit_after t d :
  found (Cat (Grp 1 (Plus is_digit)) (lit_text lit_after)) t = Some d ->
  forallb is_digit d = true /\ d <> [].
Proof.
  unfold found. destruct (re_search _ t) as [m|] eqn:E; [|discriminate].
  simpl ngroups. destruct (Nat.leb 1 _); [|discriminate].
  apply re_search_sound in E. destruct E as (before & v & _ & Hv).
  revert Hv. generalize (m_caps m). intros g Hv Hc.
  invert_matches. simpl in Hc. injection Hc as <-. now split.
Qed.

End DigitFacts.

(** ** Extraction followed by coercion *)

Section Coercions.
Context `{UnicodeDB}.

(** X2.  What [parse_basic] and [parse_system] store as capacity and as
    panel count is [None] or a string of digits, so the integer coercion
    of the dataset builder can only fail on an absent value: a capacity
    found is read as its number by both copies, an absent one is [0] in
    the copy under [ciel_et_terre/] and a [TypeError] in the top-level
    copy; a panel count found is read as its number, an absent one is a
    [TypeError].  (Integers of any length, as [int] read them when the
    script was written.) *)
Theorem integer_fields_after_extraction txt :
  digits_are_not_spaces ->
  (forall v,
     search pat_kWp (Some txt) = Ret v ->
     V2.coerce_kWp (of_opt v)
     = Ret (PyInt match v with
                  | Some d => Z.of_N (number_of d)
                  | None => 0
                  end)
     /\ V1.coerce_kWp (of_opt v)
        = match v with
          | Some d => Ret (PyInt (Z.of_N (number_of d)))
          | None => Raise TypeError
          end)
  /\ (forall v,
        search pat_panel_number (Some txt) = Ret v ->
        V1.coerce_panel_number (of_opt v)
        = match v with
          | Some d => Ret (PyInt (Z.of_N (number_of d)))
          | None => Raise TypeError
          end).
Proof.
  intros Hsane.
  assert (Hint : forall lit_after v,
            found (Cat (Grp 1 (Plus is_digit)) (lit_text lit_after)) txt = v ->
            py_int (of_opt v)
            = match v with
              | Some d => Ret (PyInt (Z.of_N (number_of d)))
              | None => Raise TypeError
              end).
  { intros lit_after [d|] Hf; [|reflexivity].
    apply found_digits in Hf. destruct Hf as [Hd Hne].
    simpl. now rewrite int_of_digits. }
  split; intros v Hs; rewrite search_found in Hs; injection Hs as Hs.
  - apply Hint in Hs. unfold V1.coerce_kWp, V2.coerce_kWp.
    rewrite Hs. now destruct v.
  - apply Hint in Hs. exact Hs.
Qed.

End Coercions.

(** The database without digits outside ASCII has no digit that is a
    white space. *)
Lemma ascii_digits_are_not_spaces : @digits_are_not_spaces ascii_only.
Proof.
  intros c Hc. unfold is_digit, digit_value in Hc. simpl in Hc.
  destruct (N.ltb c 128) eqn:E; [|discriminate].
  destruct (between 48 57 c)%N eqn:Eb; [|discriminate].
  unfold between in Eb. apply andb_true_iff in Eb. destruct Eb as [Lo Hi].
  apply N.leb_le in Lo, Hi. unfold is_space, between.
  repeat match goal with
  | |- context [N.leb ?a ?b] =>
      let L := fresh in destruct (N.leb_spec a b) as [L|L]
  | |- context [N.eqb ?a ?b] =>
      let L := fresh in destruct (N.eqb_spec a b) as [L|L]
  end; simpl; try reflexivity; lia.
Qed.

(** A text with a capacity and no panel count. *)
Lemma integer_fields_after_extraction_witness :
  @V2.coerce_kWp ascii_only (PyStr (s "1153")) = Ret (PyInt 1153)
  /\ @V1.coerce_panel_number ascii_only PyNone = Raise TypeError.
Proof.
  destruct (@integer_fields_after_extraction ascii_only
              (s "a 1153 kWp plant") ascii_digits_are_not_spaces)
    as [Hk Hp].
  split.
  - exact (proj1 (Hk (Some (s "1153")) eq_refl)).
  - exact (Hp None eq_refl).
Defined.

Section Durations.
Context `{UnicodeDB}.

(** The label [parse_date] finds after "construction lasted": digits, a
    space, and one of the four unit words of the pattern. *)
Lemma found_construction txt label :
  found pat_construction txt = Some label ->
  exists d u,
    label = d ++ s " " ++ u
    /\ forallb is_digit d = true /\ d <> []
    /\ (u = s "days" \/ u = s "week" \/ u = s "weeks" \/ u = s "months").
Proof.
  unfold found. destruct (re_search _ txt) as [m|] eqn:E; [|discriminate].
  destruct (Nat.leb 1 _); [|discriminate].
  apply re_search_sound in E. destruct E as (before & v & _ & Hv).
  revert Hv. generalize (m_caps m). intros g Hv Hc.
  unfold pat_construction in Hv.
  invert_matches; simpl in Hc; injection Hc as <-;
    eexists _, _; (split; [reflexivity|]); splits; auto.
Qed.

(** [re.match] of the pattern of [to_days] on digits followed by a space:
    the digits are the first group. *)
Lemma re_match_to_days d rest m :
  forallb is_digit d = true -> d <> [] ->
  mtch (Cat (lit " ")
          (Cat (Grp 2 (Plus (none_of (s "s")))) (Opt (lit "s"))))
    (32%N :: rest) [(1%nat, d)]
    (fun t' c => Some {| m_rest := t'; m_caps := c |})
  = Some m ->
  re_match pat_to_days (d ++ 32%N :: rest) = Some m.
Proof.
  intros Hd Hne Hm. unfold re_match, pat_to_days.
  cbn [mtch]. apply plus_loop_greedy; auto.
  rewrite taken_app. exact Hm.
Qed.

Lemma abs_of_N n : Z.abs (Z.of_N n) = Z.of_N n.
Proof. apply Z.abs_eq, N2Z.is_nonneg. Qed.

Lemma abs_weeks n : Z.abs (7 * Z.of_N n) = 7 * Z.of_N n.
Proof. apply Z.abs_eq. pose proof (N2Z.is_nonneg n). lia. Qed.

Lemma timedelta_days_days n :
  timedelta_days (s "day" ++ s "s") n
  = if Z.abs n >? 999999999 then Raise OverflowError else Ret n.
Proof. reflexivity. Qed.

Lemma timedelta_days_weeks n :
  timedelta_days (s "week" ++ s "s") n
  = if Z.abs (7 * n) >? 999999999 then Raise OverflowError else Ret (7 * n).
Proof. reflexivity. Qed.

(** X3.  The duration label the extractor finds is turned into days as
    follows: ["N days"] gives [N], ["N week"] and ["N weeks"] give [7 N]
    (an [OverflowError] beyond 999999999 days), and ["N months"] raises a
    [TypeError], since [timedelta] has no keyword [months]: a page whose
    construction lasted some months stops the run. *)
Theorem to_days_after_extraction txt label :
  digits_are_not_spaces ->
  search pat_construction (Some txt) = Ret (Some label) ->
  exists d u,
    label = d ++ s " " ++ u
    /\ let n := Z.of_N (number_of d) in
       (u = s "days"
        /\ to_days (PyStr label)
           = if n >? 999999999 then Raise OverflowError
             else Ret (PyInt n))
       \/ ((u = s "week" \/ u = s "weeks")
           /\ to_days (PyStr label)
              = if 7 * n >? 999999999 then Raise OverflowError
                else Ret (PyInt (7 * n)))
       \/ (u = s "months" /\ to_days (PyStr label) = Raise TypeError).
Proof.
  intros Hsane Hs. rewrite search_found in Hs. injection Hs as Hf.
  apply found_construction in Hf.
  destruct Hf as (d & u & -> & Hd & Hne & Hu).
  exists d, u. split; [reflexivity|]. intros n. subst n.
  assert (Hrun : forall name m,
            re_match pat_to_days (d ++ s " " ++ u) = Some m ->
            cap 2 (m_caps m) = Some name -> cap 1 (m_caps m) = Some d ->
            to_days (PyStr (d ++ s " " ++ u))
            = (k <- timedelta_days (name ++ s "s") (Z.of_N (number_of d)) ;;
               Ret (PyInt k))%exc).
  { intros name m Hm H2 H1. unfold to_days.
    destruct d as [|c d]; [congruence|].
    change ((c :: d) ++ s " " ++ u) with (c :: (d ++ s " " ++ u)) in *.
    cbv iota. rewrite Hm, H2, H1.
    rewrite int_of_digits by assumption. reflexivity. }
  destruct Hu as [-> | [-> | [-> | ->]]].
  - left. split; [reflexivity|].
    rewrite (Hrun (s "day") {| m_rest := []; m_caps := [(2%nat, s "day");
                                                         (1%nat, d)] |});
      try reflexivity.
    + rewrite timedelta_days_days, abs_of_N.
      now destruct (Z.of_N (number_of d) >? 999999999).
    + now apply re_match_to_days.
  - right. left. split; [now left|].
    rewrite (Hrun (s "week") {| m_rest := []; m_caps := [(2%nat, s "week");
                                                          (1%nat, d)] |});
      try reflexivity.
    + rewrite timedelta_days_weeks, abs_weeks.
      now destruct (7 * Z.of_N (number_of d) >? 999999999).
    + now apply re_match_to_days.
  - right. left. split; [now right|].
    rewrite (Hrun (s "week") {| m_rest := []; m_caps := [(2%nat, s "week");
                                                          (1%nat, d)] |});
      try reflexivity.
    + rewrite timedelta_days_weeks, abs_weeks.
      now destruct (7 * Z.of_N (number_of d) >? 999999999).
    + now apply re_match_to_days.
  - right. right. split; [reflexivity|].
    rewrite (Hrun (s "month") {| m_rest := []; m_caps := [(2%nat, s "month");
                                                           (1%nat, d)] |});
      try reflexivity.
    now apply re_match_to_days.
Qed.

End Durations.

(** A construction that lasted three months. *)
Lemma to_days_after_extraction_witness :
  @to_days ascii_only (PyStr (s "3 months")) = Raise TypeError.
Proof.
  destruct (@to_days_after_extraction ascii_only
              (s "construction lasted 3 months") (s "3 months")
              ascii_digits_are_not_spaces eq_refl)
    as (d & u & E & [[Hu _] | [[Hu _] | [_ Hm]]]).
  - exfalso. apply (f_equal (@rev char)) in E. rewrite Hu in E.
    rewrite !rev_app_distr in E. simpl in E. discriminate E.
  - exfalso. apply (f_equal (@rev char)) in E.
    rewrite !rev_app_distr in E. destruct Hu as [Hu | Hu]; rewrite Hu in E;
      simpl in E; discriminate E.
  - exact Hm.
Defined.

(** ** More on the fetcher *)

Section FetcherMore.
Context `{UnicodeDB} `{Lxml} `{Outside}.

(** X4.  A target that begins like the site root, with any two characters
    but a newline where the root has its dots, is requested as it is:
    addresses of the site, and also addresses of another host that differs
    from the site's only at the dots. *)
Theorem resolve_keeps_site_addresses a b rest :
  dot a = true -> dot b = true ->
  let target :=
    s "http://www" ++ [a] ++ s "ciel-et-terre" ++ [b] ++ s "net" ++ rest in
  resolve target = target.
Proof.
  intros Ha Hb target. subst target. unfold resolve, re_match, pat_site.
  simpl. rewrite Ha. simpl. now rewrite Hb.
Qed.

(** An address made by prefixing the site root matches the test of
    [fetch]. *)
Lemma resolve_site_root rest : resolve (site_root ++ rest) = site_root ++ rest.
Proof.
  unfold resolve, re_match, pat_site, site_root. reflexivity.
Qed.

(** X5.  Resolving an address twice gives what resolving it once gives:
    what [fetch] requests is always an address it would leave alone. *)
Theorem resolve_idempotent target : resolve (resolve target) = resolve target.
Proof.
  destruct (re_match pat_site target) as [m|] eqn:E.
  - assert (Et : resolve target = target) by (unfold resolve; now rewrite E).
    now rewrite !Et.
  - assert (Et : exists rest, resolve target = site_root ++ rest).
    { unfold resolve. rewrite E. eauto. }
    destruct Et as [rest ->].
    apply resolve_site_root.
Qed.

(** X6.  When the server answers with a status other than 200,
    [download_page] of either copy raises [ValueError] after its one
    request and leaves the files, the ledger, the ledger file and the
    table as they were. *)
Theorem failed_download_leaves_no_trace item href path w r :
  li_anchor item = Some (Some href) ->
  fst (server (resolve href)) <> 200%N ->
  r = V1.download_page item path w
  \/ r = V2.download_page (Some href) path w ->
  r = (Raise ValueError, set_requests (requests w ++ [resolve href]) w).
Proof.
  intros Ha Hs Hr.
  assert (Hf : fetch (Some href) w
               = (Raise ValueError,
                  set_requests (requests w ++ [resolve href]) w)).
  { unfold fetch, mbind, modify, mraise.
    destruct (server (resolve href)) as [status_code content]. simpl in Hs.
    now destruct (N.eqb_spec status_code 200). }
  destruct Hr as [-> | ->].
  - unfold V1.download_page, V1.get_page, mbind, mtry. now rewrite Ha, Hf.
  - unfold V2.download_page, mbind. now rewrite Hf.
Qed.

End FetcherMore.

Lemma resolve_keeps_site_addresses_witness :
  resolve (s "http://wwwXciel-et-terre-net/umenoki")
  = s "http://wwwXciel-et-terre-net/umenoki".
Proof.
  apply (resolve_keeps_site_addresses 88%N 45%N (s "/umenoki"));
    reflexivity.
Defined.

(** A server that has nothing. *)
Lemma failed_download_leaves_no_trace_witness :
  let O := {| server := fun _ => (404%N, []);
              now := @now march_5 |} in
  let w := start [] None in
  @V1.download_page pages O umenoki umenoki_path w
  = (Raise ValueError, set_requests [umenoki_url] w).
Proof.
  intros O w.
  apply (@failed_download_leaves_no_trace pages O umenoki (s "/umenoki")
           umenoki_path w).
  - reflexivity.
  - discriminate.
  - left. reflexivity.
Defined.

(** ** More on [download_page] *)

Section DownloadMore.
Context `{UnicodeDB} `{Lxml} `{Outside}.
Local Open Scope M_scope.

Lemma fetch_ok href w content pg :
  server (resolve href) = (200%N, content) ->
  fromstring content = Ret pg ->
  fetch (Some href) w
  = (Ret pg, set_requests (requests w ++ [resolve href]) w).
Proof.
  intros Hs Hp. unfold fetch, mbind, modify, lift. now rewrite Hs, Hp.
Qed.

Lemma download_page_eq item href path w content pg r :
  li_anchor item = Some (Some href) ->
  server (resolve href) = (200%N, content) ->
  fromstring content = Ret pg ->
  r = V1.download_page item path w
  \/ r = V2.download_page (Some href) path w ->
  r = store_page pg path (set_requests (requests w ++ [resolve href]) w).
Proof.
  intros Ha Hs Hp [-> | ->].
  - unfold V1.download_page, V1.get_page, mbind, mtry.
    now rewrite Ha, (@fetch_ok href w content pg Hs Hp).
  - unfold V2.download_page, mbind.
    now rewrite (@fetch_ok href w content pg Hs Hp).
Qed.

(** X7.  When the page the server sends has no [div.content-article],
    [download_page] of either copy raises [IndexError] with the ledger as
    it was, but the local file is there already, empty: from then on the
    cache decision takes it for the cached page and downloads nothing. *)
Theorem download_without_article_leaves_empty_file
  item href path w content pg r :
  li_anchor item = Some (Some href) ->
  server (resolve href) = (200%N, content) ->
  fromstring content = Ret pg ->
  content_article pg = None ->
  r = V1.download_page item path w
  \/ r = V2.download_page (Some href) path w ->
  fst r = Raise IndexError
  /\ read_file path (snd r) = (Ret [], snd r)
  /\ last_downloaded (snd r) = last_downloaded w
  /\ ledger_file (snd r) = ledger_file w
  /\ forall download title,
       ensure_cached download title path (snd r) = (Ret tt, snd r).
Proof.
  intros Ha Hs Hp Hc Hr.
  rewrite (@download_page_eq item href path w content pg r Ha Hs Hp Hr).
  unfold store_page, mbind, write_file, modify, mraise. rewrite Hc. simpl.
  assert (Hread : forall fs rq,
            read_file path
              {| files := (path, []) :: fs; ledger_file := ledger_file w;
                 last_downloaded := last_downloaded w; df := df w;
                 requests := rq |}
            = (Ret [], {| files := (path, []) :: fs;
                          ledger_file := ledger_file w;
                          last_downloaded := last_downloaded w; df := df w;
                          requests := rq |})).
  { intros fs rq. unfold read_file. simpl. now rewrite text_eqb_refl. }
  splits; auto.
  - apply Hread.
  - intros download title. apply ensure_cached_present.
    unfold file_exists. simpl. now rewrite text_eqb_refl.
Qed.

(** X8.  After a download that succeeds, the local file holds the content
    container, the ledger has today's date in column [last_download] of
    the row labelled with the file path, the ledger file is the ledger as
    it is in memory, and the table is untouched. *)
Theorem download_stores_page_and_date item href path w content pg a r :
  li_anchor item = Some (Some href) ->
  server (resolve href) = (200%N, content) ->
  fromstring content = Ret pg ->
  content_article pg = Some a ->
  r = V1.download_page item path w
  \/ r = V2.download_page (Some href) path w ->
  fst r = Ret tt
  /\ read_file path (snd r) = (Ret a, snd r)
  /\ cell_is LNaN (last_downloaded (snd r)) path (s "last_download")
       (date_of now)
  /\ ledger_file (snd r) = Some (to_csv (last_downloaded (snd r)))
  /\ df (snd r) = df w
  /\ requests (snd r) = requests w ++ [resolve href].
Proof.
  intros Ha Hs Hp Hc Hr.
  rewrite (@download_page_eq item href path w content pg r Ha Hs Hp Hr).
  unfold store_page, mbind, write_file, modify. rewrite Hc. simpl.
  splits; auto.
  - unfold read_file. simpl. now rewrite text_eqb_refl.
  - apply cell_is_set_same.
Qed.

(** X9.  The start of [get_projects].  When the ledger does not know
    ['main'] and the index page is fetched, the page is written to
    [main.html] and ['main'] gets today's date in the ledger in memory,
    but the ledger file is not written.  When the ledger knows ['main'],
    nothing is requested: the local copy is parsed, and a missing local
    copy is an [OSError]. *)
Theorem main_page_branches w :
  (in_index (s "main") (last_downloaded w) = false ->
   forall content pg,
     server index_url = (200%N, content) ->
     fromstring content = Ret pg ->
     let r := main_page w in
     fst r = Ret pg
     /\ requests (snd r) = requests w ++ [index_url]
     /\ read_file main_path (snd r) = (Ret (tostring pg), snd r)
     /\ cell_is LNaN (last_downloaded (snd r)) (s "main")
          (s "last_downloaded") (date_of now)
     /\ ledger_file (snd r) = ledger_file w)
  /\ (in_index (s "main") (last_downloaded w) = true ->
      main_page w
      = match assoc main_path (files w) with
        | Some c => (fromstring c, w)
        | None => (Raise OSError, w)
        end).
Proof.
  split.
  - intros Hk content pg Hs Hp r. subst r.
    unfold main_page, mbind, gets. rewrite Hk.
    change (resolve (s "our-floating-solar-power-plants-references/"))
      with index_url in *.
    rewrite (@fetch_ok (s "our-floating-solar-power-plants-references/")
               w content pg Hs Hp).
    unfold write_file, modify, mret. simpl. splits; auto.
    apply cell_is_set_same.
  - intros Hk. unfold main_page, mbind, gets. now rewrite Hk.
Qed.

End DownloadMore.

Lemma download_without_article_leaves_empty_file_witness :
  let r := @V2.download_page bare_pages march_5 (Some (s "/umenoki"))
             umenoki_path (start [] None) in
  fst r = Raise IndexError
  /\ @read_file umenoki_path (snd r) = (Ret [], snd r).
Proof.
  intros r.
  destruct (@download_without_article_leaves_empty_file ascii_only
              bare_pages march_5 umenoki (s "/umenoki") umenoki_path
              (start [] None) umenoki_page umenoki_page r
              eq_refl eq_refl eq_refl eq_refl (or_intror eq_refl))
    as (Hf & Hr & _).
  now split.
Defined.

Lemma download_stores_page_and_date_witness :
  let r := @V1.download_page pages march_5 umenoki umenoki_path
             (start [] None) in
  fst r = Ret tt
  /\ @read_file umenoki_path (snd r) = (Ret umenoki_page, snd r).
Proof.
  intros r.
  destruct (@download_stores_page_and_date pages march_5 umenoki
              (s "/umenoki") umenoki_path (start [] None) umenoki_page
              umenoki_page umenoki_page r
              eq_refl eq_refl eq_refl eq_refl (or_introl eq_refl))
    as (Hf & Hr & _).
  now split.
Defined.

(** A first run: the index page is fetched and no ledger file appears. *)
Lemma main_page_branches_witness :
  let r := @main_page pages march_5 (start [] None) in
  fst r = Ret index_page
  /\ requests (snd r) = [index_url]
  /\ ledger_file (snd r) = None.
Proof.
  intros r.
  destruct (@main_page_branches pages march_5 (start [] None))
    as [Hfresh _].
  destruct (Hfresh eq_refl index_page index_page eq_refl eq_refl)
    as (Hf & Hq & _ & _ & Hl).
  splits; assumption.
Defined.

(** ** The ledger and its file *)

Section LedgerDates.
Context `{UnicodeDB} `{Lxml} `{Outside}.

Lemma strptime_Ym_iso y m d :
  strptime_Ym (Some (isoformat y m d)) = Raise ValueError.
Proof.
  unfold isoformat, pad_digits. simpl app.
  generalize (digit_char (y / 10 / 10 / 10 mod 10)),
    (digit_char (y / 10 / 10 mod 10)), (digit_char (y / 10 mod 10)),
    (digit_char (y mod 10)), (digit_char (m / 10 mod 10)),
    (digit_char (m mod 10)), (digit_char (d / 10 mod 10)),
    (digit_char (d mod 10)).
  intros a b c e f g h i.
  unfold strptime_Ym, strptime_with, re_match, fmt_Ym, pat_year.
  cbn [mtch lit lit_text s List.map list_ascii_of_string].
  repeat match goal with
  | |- context [if ?x then _ else _] =>
      let E := fresh in
      destruct x eqn:E; cbn [mtch m_rest] in *; try discriminate E
  end; reflexivity.
Qed.

(** X11.  A date the script has written to the ledger file comes back as
    an ISO string with the day, which [strptime(..., '%Y-%m')] rejects:
    when the local file is missing and the ledger cell of the title is
    such a date, the cache decision raises [ValueError] and downloads
    nothing. *)
Theorem written_date_is_rejected download title path w y m d :
  file_exists path w = false ->
  in_index title (last_downloaded w) = true ->
  loc_get LNaN (last_downloaded w) title (s "last_downloaded")
  = Ret (Scalar (read_cell (render (LDate y m d)))) ->
  ensure_cached download title path w = (Raise ValueError, w).
Proof.
  intros He Hk Hc. unfold ensure_cached, mbind, path_exists, gets, lift.
  rewrite He. cbn [negb]. rewrite Hk. cbv beta iota. rewrite Hc.
  cbv beta iota.
  assert (E : str_of (Scalar (read_cell (render (LDate y m d))))
              = Some (isoformat y m d)).
  { unfold render, isoformat, pad_digits. reflexivity. }
  now rewrite E, strptime_Ym_iso.
Qed.

(** X12.  The other ways the cache decision fails when the local file is
    missing and the ledger knows the title: a ledger without the column
    [last_downloaded] is a [KeyError]; a cell that is no string (empty, a
    date stored during this run, or several rows with the title) is a
    [TypeError].  Nothing is downloaded and the state stays as it was. *)
Theorem cache_decision_errors download title path w :
  file_exists path w = false ->
  in_index title (last_downloaded w) = true ->
  (has_column (s "last_downloaded") (last_downloaded w) = false ->
   ensure_cached download title path w = (Raise KeyError, w))
  /\ (forall cell,
        loc_get LNaN (last_downloaded w) title (s "last_downloaded")
        = Ret cell ->
        str_of cell = None ->
        ensure_cached download title path w = (Raise TypeError, w)).
Proof.
  intros He Hk. split.
  - intros Hcol. unfold ensure_cached, mbind, path_exists, gets, lift.
    rewrite He. cbn [negb]. rewrite Hk. cbv beta iota.
    unfold loc_get. now rewrite Hcol.
  - intros cell Hc Hs. unfold ensure_cached, mbind, path_exists, gets, lift.
    rewrite He. cbn [negb]. rewrite Hk. cbv beta iota. rewrite Hc.
    cbv beta iota. now rewrite Hs.
Qed.

End LedgerDates.

Lemma written_date_is_rejected_witness :
  let w := start [] (Some (ledger_with (s "2019-03-01"))) in
  @ensure_cached ascii_only march_5 (fun _ => mret tt) umenoki_title
    umenoki_path w
  = (Raise ValueError, w).
Proof.
  intros w.
  apply (@written_date_is_rejected ascii_only march_5 (fun _ => mret tt)
           umenoki_title umenoki_path w 2019 3 1); reflexivity.
Defined.

(** A ledger file with an empty date, and one with the column of
    [download_page] only. *)
Lemma cache_decision_errors_witness :
  let w1 := start [] (Some (ledger_with [])) in
  let w2 := start [] (Some {| csv_header := [s "last_download"];
                              csv_rows := [(umenoki_title,
                                            [s "2019-03-05"])] |}) in
  @ensure_cached ascii_only march_5 (fun _ => mret tt) umenoki_title
    umenoki_path w1
  = (Raise TypeError, w1)
  /\ @ensure_cached ascii_only march_5 (fun _ => mret tt) umenoki_title
       umenoki_path w2
     = (Raise KeyError, w2).
Proof.
  intros w1 w2. split.
  - destruct (@cache_decision_errors ascii_only march_5 (fun _ => mret tt)
                umenoki_title umenoki_path w1 eq_refl eq_refl) as [_ Hcell].
    exact (Hcell (Scalar LNaN) eq_refl eq_refl).
  - destruct (@cache_decision_errors ascii_only march_5 (fun _ => mret tt)
                umenoki_title umenoki_path w2 eq_refl eq_refl) as [Hcol _].
    exact (Hcol eq_refl).
Defined.

(** ** Titles *)

Lemma partition_fst_no_sep sep t : ~ In sep (fst (partition sep t)).
Proof.
  induction t as [|c t IH]; simpl; [tauto|].
  destruct (N.eqb_spec c sep) as [->|Hne]; simpl; [tauto|].
  destruct (partition sep t) as [a b]. simpl in *. intros [E | Hin]; auto.
Qed.

Lemma partition_app sep a b :
  ~ In sep a -> partition sep (a ++ sep :: b) = (a, b).
Proof.
  induction a as [|c a IH]; simpl; intros Hn.
  - now rewrite N.eqb_refl.
  - destruct (N.eqb_spec c sep) as [->|Hne]; [tauto|].
    rewrite IH; tauto.
Qed.

Lemma in_lstrip c t : In c (lstrip t) -> In c t.
Proof.
  induction t as [|a t IH]; simpl; [tauto|].
  destruct (is_space a); simpl; tauto.
Qed.

Lemma in_strip c t : In c (strip t) -> In c t.
Proof.
  unfold strip. intros Hin. apply in_rev in Hin. apply in_lstrip in Hin.
  apply in_rev in Hin. now apply in_lstrip in Hin.
Qed.

Section Titles.
Context `{UnicodeDB}.

Lemma get_name_kwp_no_hyphen item name kwp :
  get_name_kwp item = Ret (name, kwp) -> ~ In 45%N name.
Proof.
  unfold get_name_kwp.
  destruct (li_div_text item) as [[div_text|]|]; try discriminate.
  destruct (partition 45%N (re_remove pat_boilerplate div_text 0))
    as [a b] eqn:E.
  simpl. intros [= <- <-] Hin. apply in_strip in Hin.
  pose proof (partition_fst_no_sep 45%N
                (re_remove pat_boilerplate div_text 0)) as Hn.
  rewrite E in Hn. now apply Hn.
Qed.

(** X13.  The name [get_name_kwp] returns has no hyphen, so the title
    built from a name and a capacity label splits back into them at its
    first hyphen: two list items get the same title, and with it the
    same cache file and table row, only when they have the same name and
    the same capacity label.  And no title is ['main'], the label the
    ledger keeps for the index page. *)
Theorem title_determines_name_and_label item name kwp :
  get_name_kwp item = Ret (name, kwp) ->
  partition 45%N (title_of name kwp) = (name, kwp)
  /\ (forall item' name' kwp',
        get_name_kwp item' = Ret (name', kwp') ->
        title_of name kwp = title_of name' kwp' ->
        name = name' /\ kwp = kwp')
  /\ title_of name kwp <> s "main".
Proof.
  intros Hn.
  assert (Hsplit : forall i n k,
            get_name_kwp i = Ret (n, k) ->
            partition 45%N (title_of n k) = (n, k)).
  { intros i n k Hi. unfold title_of. apply partition_app.
    eapply get_name_kwp_no_hyphen; eassumption. }
  splits.
  - eapply Hsplit; eassumption.
  - intros item' name' kwp' Hn' Et.
    pose proof (Hsplit _ _ _ Hn) as E1. pose proof (Hsplit _ _ _ Hn') as E2.
    rewrite Et in E1. rewrite E1 in E2. now injection E2.
  - intros Et. pose proof (Hsplit _ _ _ Hn) as E. rewrite Et in E.
    vm_compute in E. injection E as <- <-. discriminate Et.
Qed.

End Titles.

Lemma title_determines_name_and_label_witness :
  partition 45%N umenoki_title = (s "Umenoki", s "1153 kWp").
Proof.
  destruct (@title_determines_name_and_label ascii_only umenoki
              (s "Umenoki") (s "1153 kWp") eq_refl) as [Hsplit _].
  exact Hsplit.
Defined.

(** ** More on the field extractor *)

Section ExtractorMore.
Context `{UnicodeDB} `{Lxml}.
Local Open Scope M_scope.

Lemma mbind_ret (m k : M unit) w :
  fst (m w) = Ret tt -> (m ;;; k) w = k (snd (m w)).
Proof.
  unfold mbind. destruct (m w) as [[[]|e] w']; simpl; [reflexivity|].
  discriminate.
Qed.

Lemma parse_page_eq pg title w :
  parse_page pg title w
  = match page_text (p_texts pg) with
    | [] => (Ret tt, w)
    | _ =>
        parse_date (page_text (p_texts pg)) title
          (snd (parse_advanced (page_text (p_texts pg)) title
                  (snd (parse_system (page_text (p_texts pg)) title
                          (snd (parse_basic (page_text (p_texts pg)) title
                                  w))))))
    end.
Proof.
  unfold parse_page. destruct (page_text (p_texts pg)) as [|c t] eqn:E;
    [reflexivity|].
  rewrite mbind_ret by now rewrite parse_basic_eq.
  rewrite mbind_ret by now rewrite parse_system_eq.
  rewrite mbind_ret by now rewrite parse_advanced_eq.
  reflexivity.
Qed.

(** X14.  Parsing a page changes nothing but the table, and in the table
    nothing but the rows of the page's own title: the files, the ledger
    and the rows of every other project stay as they were, also when the
    parse raises. *)
Theorem parse_page_touches_one_row pg title w :
  let w' := snd (parse_page pg title w) in
  files w' = files w
  /\ ledger_file w' = ledger_file w
  /\ last_downloaded w' = last_downloaded w
  /\ requests w' = requests w
  /\ forall other,
       other <> title -> rows_at other (df w') = rows_at other (df w).
Proof.
  intros w'. subst w'. rewrite parse_page_eq.
  destruct (page_text (p_texts pg)) as [|c t]; [simpl; splits; auto|].
  generalize (c :: t). clear c t. intros t.
  rewrite parse_basic_eq, parse_system_eq, parse_advanced_eq, parse_date_eq.
  cbn [snd].
  destruct (interconnect_date (found pat_interconnect t));
    cbn [snd set_df files ledger_file last_downloaded requests df];
    splits; auto; intros other Hne; apply text_eqb_neq in Hne;
    now rewrite !rows_at_loc_set_other by assumption.
Qed.

(** X15.  A page with text but without a match of the date pattern makes
    [parse_page] raise [TypeError] after the first three extractors have
    run: a row for the title is left in the table, holding what they
    found, [None] where they found nothing. *)
Theorem page_without_date_leaves_partial_row pg title w :
  page_text (p_texts pg) <> [] ->
  re_search pat_interconnect (page_text (p_texts pg)) = None ->
  let r := parse_page pg title w in
  fst r = Raise TypeError
  /\ in_index title (df (snd r)) = true
  /\ forall fld,
       fld <> f_covers_panels -> fld <> f_covers_total ->
       fld <> f_construction_duration ->
       cell_is PyNaN (df (snd r)) title (column_of fld)
         (of_opt (found (pattern_of fld) (page_text (p_texts pg)))).
Proof.
  intros Hne Hnone r. subst r. rewrite parse_page_eq.
  destruct (page_text (p_texts pg)) as [|c t] eqn:E; [congruence|].
  rewrite <- E in *. clear E c t. set (t := page_text (p_texts pg)) in *.
  rewrite parse_basic_eq, parse_system_eq, parse_advanced_eq, parse_date_eq.
  rewrite (found_none _ _ Hnone). cbn [snd fst set_df df]. simpl.
  assert (Hcells : forall fld,
            fld <> f_covers_panels -> fld <> f_covers_total ->
            fld <> f_construction_duration ->
            cell_is PyNaN
              (loc_set
                 (loc_set
                    (loc_set
                       (loc_set
                          (loc_set
                             (loc_set
                                (loc_set
                                   (loc_set
                                      (loc_set
                                         (loc_set (df w) title (s "kWp")
                                            (of_opt (found pat_kWp t)))
                                         title (s "location")
                                         (of_opt (found pat_location t)))
                                      title (s "water_body_type")
                                      (of_opt (found pat_water_body_type t)))
                                   title (s "panel_number")
                                   (of_opt (found pat_panel_number t)))
                                title (s "panel_type")
                                (of_opt (found pat_panel_type t)))
                             title (s "covers_pct")
                             (of_opt (found pat_covers_pct t)))
                          title (s "covers_panels")
                          (of_opt (fst (covers_found t))))
                       title (s "covers_total")
                       (of_opt (snd (covers_found t))))
                    title (s "max_depth") (of_opt (found pat_max_depth t)))
                 title (s "level_variation")
                 (of_opt (found pat_level_variation t)))
              title (column_of fld) (of_opt (found (pattern_of fld) t))).
  { intros fld H1 H2 H3. destruct fld; try congruence;
      cbn [column_of pattern_of]; cell_written. }
  splits; auto.
  destruct (Hcells f_kWp) as [Hrow _]; try discriminate.
  match goal with |- in_index title ?f = true =>
    destruct (in_index title f) eqn:Ei; [reflexivity|]
  end.
  apply in_index_rows_at in Ei. congruence.
Qed.

End ExtractorMore.

(** A parse under one title leaves the row of another as it was. *)
Lemma parse_page_touches_one_row_witness :
  let w := snd (@parse_page ascii_only pages umenoki_page (s "A-1")
                  (start [] None)) in
  rows_at (s "A-1")
    (df (snd (@parse_page ascii_only pages umenoki_page (s "B-2") w)))
  = rows_at (s "A-1") (df w).
Proof.
  intros w.
  destruct (@parse_page_touches_one_row ascii_only pages umenoki_page
              (s "B-2") w) as (_ & _ & _ & _ & Hrows).
  apply Hrows. discriminate.
Defined.

(** A page that has a capacity and no date. *)
Lemma page_without_date_leaves_partial_row_witness :
  let r := @parse_page ascii_only pages (s "A plant of 1153 kWp")
             (s "A-1") (start [] None) in
  fst r = Raise TypeError
  /\ cell_is PyNaN (df (snd r)) (s "A-1") (s "kWp") (PyStr (s "1153")).
Proof.
  intros r.
  destruct (@page_without_date_leaves_partial_row ascii_only pages
              (s "A plant of 1153 kWp") (s "A-1") (start [] None))
    as (Hf & _ & Hcells).
  - discriminate.
  - reflexivity.
  - split; [exact Hf|]. apply (Hcells f_kWp); discriminate.
Defined.

(** ** The loop over the projects *)

Section LoopMore.
Context `{UnicodeDB} `{Lxml} `{Outside}.
Local Open Scope M_scope.

(** X16.  A list item without a link.  The copy under [ciel_et_terre/]
    looks for the link first and raises [IndexError] whatever the cache
    holds; the top-level copy looks for it only to download, so it parses
    an existing local file and raises only when the file is missing and
    the title is not in the ledger. *)
Theorem project_without_link item name kwp w :
  get_name_kwp item = Ret (name, kwp) ->
  li_anchor item = None ->
  let title := title_of name kwp in
  let file_path := file_path_of title in
  V2.project_step item w = (Raise IndexError, w)
  /\ (file_exists file_path w = true ->
      V1.project_step item w = parse_cached title file_path w)
  /\ (file_exists file_path w = false ->
      in_index title (last_downloaded w) = false ->
      V1.project_step item w = (Raise IndexError, w)).
Proof.
  intros Hn Ha title file_path. splits.
  - unfold V2.project_step, V2.get_link, mbind, lift. now rewrite Hn, Ha.
  - intros He. rewrite (@V1_project_step_eq _ _ _ item name kwp w Hn).
    unfold mbind. now rewrite ensure_cached_present.
  - intros He Hk. rewrite (@V1_project_step_eq _ _ _ item name kwp w Hn).
    unfold mbind. rewrite ensure_cached_unknown by assumption.
    unfold V1.download_page, V1.get_page, mbind, mtry, mraise.
    now rewrite Ha.
Qed.

Lemma parse_page_rows_other pg title k w :
  k <> title ->
  rows_at k (df (snd (parse_page pg title w))) = rows_at k (df w).
Proof.
  intros Hne. apply text_eqb_neq in Hne. rewrite parse_page_eq.
  destruct (page_text (p_texts pg)) as [|c t]; [reflexivity|].
  generalize (c :: t). clear c t. intros t.
  rewrite parse_basic_eq, parse_system_eq, parse_advanced_eq, parse_date_eq.
  cbn [snd].
  destruct (interconnect_date (found pat_interconnect t));
    cbn [snd set_df df]; now rewrite !rows_at_loc_set_other by assumption.
Qed.

Lemma parse_cached_rows_other title path k w :
  k <> title ->
  rows_at k (df (snd (parse_cached title path w))) = rows_at k (df w).
Proof.
  intros Hne. unfold parse_cached, mbind, read_file, lift.
  destruct (assoc path (files w)) as [content|]; [|reflexivity].
  destruct (fromstring content) as [pg|e]; [|reflexivity].
  now apply parse_page_rows_other.
Qed.

Lemma parse_cached_requests title path w :
  requests (snd (parse_cached title path w)) = requests w.
Proof.
  now destruct (parse_cached_df title path w) as [d ->].
Qed.

Lemma fetch_df target w : df (snd (fetch target w)) = df w.
Proof.
  destruct target as [target|]; [|reflexivity].
  unfold fetch, mbind, modify, lift, mraise.
  destruct (server (resolve target)) as [status_code content].
  now destruct (N.eqb status_code 200).
Qed.

Lemma store_page_df pg path w : df (snd (store_page pg path w)) = df w.
Proof.
  unfold store_page, mbind, write_file, modify, mraise.
  now destruct (content_article pg).
Qed.

Lemma fetch_requests_opt target w :
  requests (snd (fetch target w))
  = requests w ++ link_requests (Some target).
Proof.
  destruct target as [target|]; [apply fetch_requests|].
  simpl. now rewrite app_nil_r.
Qed.

Lemma V1_download_frame item path w :
  df (snd (V1.download_page item path w)) = df w
  /\ requests (snd (V1.download_page item path w))
     = requests w ++ link_requests (li_anchor item).
Proof.
  unfold V1.download_page, V1.get_page, mbind, mtry.
  destruct (li_anchor item) as [href|].
  - pose proof (fetch_df href w) as Hd.
    pose proof (fetch_requests_opt href w) as Hq.
    destruct (fetch href w) as [[pg|e] w'].
    + now rewrite store_page_df, store_page_requests.
    + now destruct (exn_eqb e IndexError).
  - simpl. now rewrite app_nil_r.
Qed.

Lemma V2_download_frame link path w :
  df (snd (V2.download_page link path w)) = df w
  /\ requests (snd (V2.download_page link path w))
     = requests w ++ link_requests (Some link).
Proof.
  unfold V2.download_page, mbind.
  pose proof (fetch_df link w) as Hd.
  pose proof (fetch_requests_opt link w) as Hq.
  destruct (fetch link w) as [[pg|e] w']; [|now split].
  now rewrite store_page_df, store_page_requests.
Qed.

(** The cache decision leaves the state as it was or is the download. *)
Lemma ensure_cached_cases dl title path w :
  snd (ensure_cached dl title path w) = w
  \/ ensure_cached dl title path w = dl path w.
Proof.
  unfold ensure_cached, mbind, path_exists, gets, lift.
  destruct (file_exists path w); [now left|]. cbn [negb].
  destruct (in_index title (last_downloaded w)); [|now right].
  destruct (loc_get LNaN (last_downloaded w) title (s "last_downloaded"))
    as [cell|e]; [|now left].
  destruct (strptime_Ym (str_of cell)) as [recency|e]; [|now left].
  destruct (td_gt _ _); [now right | now left].
Qed.

Lemma link_requests_listed item :
  Forall (listed_link [item]) (link_requests (li_anchor item)).
Proof.
  destruct (li_anchor item) as [[href|]|] eqn:E; simpl; constructor;
    [|constructor].
  exists item, href. simpl. auto.
Qed.

(** What a step of the loop may change: the rows of its own title, and
    the requests by one for its own link. *)
Lemma cached_step_frame dl title path item k w :
  (forall w', df (snd (dl path w')) = df w'
              /\ requests (snd (dl path w'))
                 = requests w' ++ link_requests (li_anchor item)) ->
  let r := (ensure_cached dl title path ;;; parse_cached title path) w in
  (k <> title -> rows_at k (df (snd r)) = rows_at k (df w))
  /\ exists urls,
       requests (snd r) = requests w ++ urls
       /\ Forall (listed_link [item]) urls.
Proof.
  intros Hdl r. subst r. unfold mbind at 1 2.
  assert (Hc : exists urls,
            df (snd (ensure_cached dl title path w)) = df w
            /\ requests (snd (ensure_cached dl title path w))
               = requests w ++ urls
            /\ Forall (listed_link [item]) urls).
  { destruct (ensure_cached_cases dl title path w) as [E|E]; rewrite E.
    - exists []. rewrite app_nil_r. auto.
    - exists (link_requests (li_anchor item)).
      destruct (Hdl w) as [Hd Hq]. splits; auto.
      apply link_requests_listed. }
  destruct Hc as (urls & Hd & Hq & Hl).
  destruct (ensure_cached dl title path w) as [[[]|e] w1];
    cbn [snd] in Hd, Hq; cbv beta iota; cbn [snd].
  - split.
    + intros Hne. now rewrite parse_cached_rows_other, Hd.
    + exists urls. now rewrite parse_cached_requests.
  - split; [now rewrite Hd | now exists urls].
Qed.

Lemma V1_step_frame item k w :
  let r := V1.project_step item w in
  (~ listed_title [item] k -> rows_at k (df (snd r)) = rows_at k (df w))
  /\ exists urls,
       requests (snd r) = requests w ++ urls
       /\ Forall (listed_link [item]) urls.
Proof.
  intros r. subst r. unfold V1.project_step, mbind at 1, lift.
  destruct (get_name_kwp item) as [[name kwp]|e] eqn:En.
  - cbn [fst snd].
    destruct (@cached_step_frame (V1.download_page item)
                (title_of name kwp) (file_path_of (title_of name kwp))
                item k w) as [Hrows Hreq].
    { intros w'. apply V1_download_frame. }
    split; [|exact Hreq]. intros Hk. apply Hrows. intros ->. apply Hk.
    exists item, name, kwp. simpl. auto.
  - split; [reflexivity|]. exists []. simpl. now rewrite app_nil_r.
Qed.

Lemma V2_step_frame item k w :
  let r := V2.project_step item w in
  (~ listed_title [item] k -> rows_at k (df (snd r)) = rows_at k (df w))
  /\ exists urls,
       requests (snd r) = requests w ++ urls
       /\ Forall (listed_link [item]) urls.
Proof.
  intros r. subst r. unfold V2.project_step, mbind at 1, lift.
  destruct (get_name_kwp item) as [[name kwp]|e] eqn:En.
  - cbn [fst snd]. unfold mbind at 1, V2.get_link.
    destruct (li_anchor item) as [link|] eqn:Ea; simpl try_except.
    + unfold mbind at 1, df_set, modify.
      destruct (@cached_step_frame (V2.download_page link)
                  (title_of name kwp) (file_path_of (title_of name kwp))
                  item k
                  (set_df (loc_set (df w) (title_of name kwp) (s "source")
                             (of_opt link)) w)) as [Hrows Hreq].
      { intros w'. rewrite Ea. apply V2_download_frame. }
      split; [|exact Hreq]. intros Hk.
      assert (Hne : k <> title_of name kwp).
      { intros ->. apply Hk. exists item, name, kwp. simpl. auto. }
      rewrite (Hrows Hne). cbn [df set_df].
      apply rows_at_loc_set_other. now apply text_eqb_neq.
    + split; [reflexivity|]. exists []. simpl. now rewrite app_nil_r.
  - split; [reflexivity|]. exists []. simpl. now rewrite app_nil_r.
Qed.

Lemma listed_title_mono l1 l2 k :
  incl l1 l2 -> listed_title l1 k -> listed_title l2 k.
Proof.
  intros Hi (item & name & kwp & Hin & Hn & ->).
  exists item, name, kwp. auto.
Qed.

Lemma listed_link_mono l1 l2 url :
  incl l1 l2 -> listed_link l1 url -> listed_link l2 url.
Proof.
  intros Hi (item & href & Hin & Ha & ->). exists item, href. auto.
Qed.

(** The same for the whole loop. *)
Lemma for_each_frame (step : li -> M unit) items k :
  (forall item w,
     let r := step item w in
     (~ listed_title [item] k -> rows_at k (df (snd r)) = rows_at k (df w))
     /\ exists urls,
          requests (snd r) = requests w ++ urls
          /\ Forall (listed_link [item]) urls) ->
  forall w,
    let r := for_each step items w in
    (~ listed_title items k -> rows_at k (df (snd r)) = rows_at k (df w))
    /\ exists urls,
         requests (snd r) = requests w ++ urls
         /\ Forall (listed_link items) urls.
Proof.
  intros Hstep. induction items as [|item items IH]; intros w r; subst r.
  - simpl. split; [reflexivity|]. exists []. now rewrite app_nil_r.
  - simpl. unfold mbind. destruct (Hstep item w) as [Hrows (u1 & Hq1 & Hl1)].
    assert (Hi1 : incl [item] (item :: items))
      by (intros x [<-|[]]; now left).
    assert (Hi2 : incl items (item :: items)) by (intros x Hx; now right).
    destruct (step item w) as [[[]|e] w1]; simpl in *.
    + destruct (IH w1) as [Hrows2 (u2 & Hq2 & Hl2)]. split.
      * intros Hk. rewrite Hrows2, Hrows; [reflexivity | |];
          intros Hl; apply Hk;
          (eapply listed_title_mono; [|exact Hl]; assumption).
      * exists (u1 ++ u2). rewrite Hq2, Hq1, app_assoc.
        split; [reflexivity|].
        apply Forall_app. split.
        -- eapply Forall_impl; [|exact Hl1].
           intros url. now apply listed_link_mono.
        -- eapply Forall_impl; [|exact Hl2].
           intros url. now apply listed_link_mono.
    + split.
      * intros Hk. apply Hrows. intros Hl. apply Hk.
        eapply listed_title_mono; [|exact Hl]. assumption.
      * exists u1. split; [assumption|].
        eapply Forall_impl; [|exact Hl1].
        intros url. now apply listed_link_mono.
Qed.

Lemma for_each_raises (step : li -> M unit) before item after w w1 e w2 :
  for_each step before w = (Ret tt, w1) ->
  step item w1 = (Raise e, w2) ->
  for_each step (before ++ item :: after) w = (Raise e, w2).
Proof.
  revert w. induction before as [|x before IH]; intros w Hb Hi; simpl in *.
  - injection Hb as <-. unfold mbind. now rewrite Hi.
  - unfold mbind in *. destruct (step x w) as [[[]|e'] w']; [|discriminate].
    now apply IH.
Qed.

Lemma main_page_df w : df (snd (main_page w)) = df w.
Proof.
  unfold main_page, mbind, gets, parse_file, write_file, modify, mret.
  destruct (in_index (s "main") (last_downloaded w)).
  - now destruct (assoc main_path (files w)).
  - pose proof (fetch_df
                  (Some (s "our-floating-solar-power-plants-references/")) w)
      as Hd.
    now destruct (fetch _ w) as [[pg|e] w'].
Qed.

(** X17.  When the step of a listed project raises, [get_projects] of
    either copy raises the same error in the state that step left, and the
    projects listed after it have left no trace: a row of the table that
    does not carry the title of a project up to the failing one is as it
    was before the run, and every request after the index page was for the
    link of a project up to the failing one. *)
Theorem run_stops_at_first_failure
  step get_projects main before item after w w0 w1 e w2 :
  (step, get_projects) = (V1.project_step, V1.get_projects)
  \/ (step, get_projects) = (V2.project_step, V2.get_projects) ->
  main_page w = (Ret main, w0) ->
  project_lis main = before ++ item :: after ->
  for_each step before w0 = (Ret tt, w1) ->
  step item w1 = (Raise e, w2) ->
  get_projects w = (Raise e, w2)
  /\ (forall k, ~ listed_title (before ++ [item]) k ->
                rows_at k (df w2) = rows_at k (df w))
  /\ exists urls,
       requests w2 = requests w0 ++ urls
       /\ Forall (listed_link (before ++ [item])) urls.
Proof.
  intros Hcopy Hm Hl Hb Hi.
  assert (Hframe : forall it k w',
            let r := step it w' in
            (~ listed_title [it] k ->
             rows_at k (df (snd r)) = rows_at k (df w'))
            /\ exists urls,
                 requests (snd r) = requests w' ++ urls
                 /\ Forall (listed_link [it]) urls).
  { destruct Hcopy as [[= -> _] | [= -> _]]; intros it k w'.
    - apply V1_step_frame.
    - apply V2_step_frame. }
  assert (Hrun : get_projects w
                 = for_each step (before ++ item :: after) w0).
  { destruct Hcopy as [[= -> ->] | [= -> ->]];
      unfold V1.get_projects, V2.get_projects, mbind;
      now rewrite Hm, Hl. }
  pose proof (@for_each_raises step before item [] w0 w1 e w2 Hb Hi)
    as Hshort.
  split.
  - rewrite Hrun.
    exact (@for_each_raises step before item after w0 w1 e w2 Hb Hi).
  - pose proof (main_page_df w) as Hd. rewrite Hm in Hd. simpl in Hd.
    split.
    + intros k Hk.
      destruct (@for_each_frame step (before ++ [item]) k
                  (fun it => Hframe it k) w0) as [Hrows _].
      rewrite Hshort in Hrows. simpl in Hrows. now rewrite Hrows, Hd.
    + destruct (@for_each_frame step (before ++ [item]) []
                  (fun it => Hframe it []) w0) as [_ Hreq].
      now rewrite Hshort in Hreq.
Qed.

End LoopMore.

(** ** The dates [parse_date] stores *)

Lemma index_of_bounds x l i j :
  index_of x l i = Some j -> i <= j < i + Z.of_nat (List.length l).
Proof.
  revert i. induction l as [|y l IH]; intros i; simpl; [discriminate|].
  destruct (text_eqb x y).
  - intros [= <-]. lia.
  - intros Hj. apply IH in Hj. lia.
Qed.

Section Dates.
Context `{UnicodeDB}.

Lemma first_of_shape y m d :
  first_of y m = Ret d ->
  d = {| year := y; month := m; day := 1;
         hour := 0; minute := 0; second := 0; microsecond := 0 |}
  /\ 1 <= y.
Proof.
  unfold first_of. destruct (Z.ltb_spec y 1); [discriminate|].
  intros [= <-]. now split.
Qed.

(** X18.  Every interconnection date [parse_date] stores is the first day
    of a month at midnight, in a year from 1 on: a phrase with a month
    gives that month, a bare year gives January. *)
Theorem interconnection_date_is_first_of_month txt title w :
  fst (parse_date txt title w) = Ret tt ->
  exists d,
    cell_is PyNaN (df (snd (parse_date txt title w))) title
      (s "interconnection_date") (PyDatetime d)
    /\ day d = 1 /\ hour d = 0 /\ minute d = 0 /\ second d = 0
    /\ microsecond d = 0
    /\ 1 <= month d <= 12 /\ 1 <= year d.
Proof.
  rewrite parse_date_eq.
  destruct (interconnect_date (found pat_interconnect txt)) as [d|e] eqn:E;
    [|discriminate].
  intros _. exists d. split; [cbn [snd set_df df]; cell_written|].
  assert (Hshape : exists y m,
            first_of y m = Ret d /\ 1 <= m <= 12).
  { unfold interconnect_date, try_except in E.
    destruct (strptime_BY (found pat_interconnect txt)) as [d1|e1] eqn:E1.
    - injection E as ->. unfold strptime_BY, strptime_with in E1.
      destruct (found pat_interconnect txt) as [x|]; [|discriminate].
      destruct (re_match fmt_BY x) as [m|]; [|discriminate].
      destruct (m_rest m); [|discriminate].
      destruct (cap 1 (m_caps m)) as [b|]; [|discriminate].
      destruct (index_of _ month_names 1) as [mo|] eqn:Ei; [|discriminate].
      apply index_of_bounds in Ei. simpl in Ei. unfold bind in E1.
      destruct (group_int m 2) as [y|]; [|discriminate].
      exists y, mo. split; [assumption | lia].
    - destruct (exn_eqb e1 ValueError); [|discriminate].
      unfold strptime_Y, strptime_with in E.
      destruct (found pat_interconnect txt) as [x|]; [|discriminate].
      destruct (re_match fmt_Y x) as [m|]; [|discriminate].
      destruct (m_rest m); [|discriminate].
      unfold bind in E. destruct (group_int m 1) as [y|]; [|discriminate].
      exists y, 1. split; [assumption | lia]. }
  destruct Hshape as (y & m & Hf & Hm). apply first_of_shape in Hf.
  destruct Hf as [-> Hy]. simpl. splits; auto; lia.
Qed.

End Dates.

Lemma project_without_link_witness :
  @V2.project_step ascii_only pages march_5
    {| li_div_text := li_div_text umenoki; li_anchor := None |}
    (start [(umenoki_path, umenoki_page)] None)
  = (Raise IndexError, start [(umenoki_path, umenoki_page)] None).
Proof.
  destruct (@project_without_link ascii_only pages march_5
              {| li_div_text := li_div_text umenoki; li_anchor := None |}
              (s "Umenoki") (s "1153 kWp")
              (start [(umenoki_path, umenoki_page)] None)
              eq_refl eq_refl) as [H2 _].
  exact H2.
Defined.

(** Three projects, the second without a title: the run stops there and
    the third has no row. *)
Lemma run_stops_at_first_failure_witness :
  let r := @V1.get_projects ascii_only three_projects march_5
             (start [] None) in
  fst r = Raise IndexError
  /\ rows_at (s "Sakasama-2000 kWp") (df (snd r)) = []
  /\ exists urls,
       requests (snd r) = [index_url] ++ urls
       /\ Forall (listed_link [umenoki; untitled]) urls.
Proof.
  intros r.
  assert (Hgen : forall w0 w1 : world,
            requests w0 = [index_url] ->
            r = (Raise IndexError, w1)
            /\ (forall k,
                  ~ @listed_title ascii_only ([umenoki] ++ [untitled]) k ->
                  rows_at k (df w1) = rows_at k (df (start [] None)))
            /\ (exists urls,
                  requests w1 = requests w0 ++ urls
                  /\ Forall (listed_link ([umenoki] ++ [untitled])) urls) ->
            fst r = Raise IndexError
            /\ rows_at (s "Sakasama-2000 kWp") (df (snd r)) = []
            /\ exists urls,
                 requests (snd r) = [index_url] ++ urls
                 /\ Forall (listed_link [umenoki; untitled]) urls).
  { intros w0 w1 E0 (Hrun & Hrows & Hreq). rewrite Hrun. cbn [fst snd].
    splits.
    - reflexivity.
    - rewrite (Hrows (s "Sakasama-2000 kWp")); [reflexivity|].
      intros (it & name & kwp & Hin & Hn & Hk).
      destruct Hin as [<-|[<-|[]]]; revert Hn; vm_compute; intros Hn.
      + injection Hn as <- <-. revert Hk. vm_compute. discriminate.
      + discriminate Hn.
    - rewrite <- E0. exact Hreq. }
  apply (Hgen
           (snd (@main_page three_projects march_5 (start [] None)))
           (snd (@for_each _
                   (@V1.project_step ascii_only three_projects march_5)
                   [umenoki]
                   (snd (@main_page three_projects march_5
                           (start [] None)))))).
  - vm_compute. reflexivity.
  - apply (@run_stops_at_first_failure ascii_only three_projects march_5
             (@V1.project_step ascii_only three_projects march_5)
             (@V1.get_projects ascii_only three_projects march_5)
             index_page [umenoki] untitled [sakasama] (start [] None)
             (snd (@main_page three_projects march_5 (start [] None)))
             (snd (@for_each _
                     (@V1.project_step ascii_only three_projects march_5)
                     [umenoki]
                     (snd (@main_page three_projects march_5
                             (start [] None)))))
             IndexError).
    + left. reflexivity.
    + vm_compute. reflexivity.
    + reflexivity.
    + vm_compute. reflexivity.
    + vm_compute. reflexivity.
Defined.

(** A bare year. *)
Lemma interconnection_date_is_first_of_month_witness :
  exists d,
    cell_is PyNaN
      (df (snd (@parse_date ascii_only (s "effective in 2019") (s "A-1")
                  (start [] None))))
      (s "A-1") (s "interconnection_date") (PyDatetime d)
    /\ day d = 1 /\ hour d = 0 /\ minute d = 0 /\ second d = 0
    /\ microsecond d = 0
    /\ 1 <= month d <= 12 /\ 1 <= year d.
Proof.
  apply (@interconnection_date_is_first_of_month ascii_only
           (s "effective in 2019") (s "A-1") (start [] None)).
  reflexivity.
Defined.

(** ** The text of a page *)

Lemma in_join c sep ps :
  In c (join sep ps) -> In c sep \/ exists p, In p ps /\ In c p.
Proof.
  induction ps as [|p ps IH]; simpl; [tauto|].
  destruct ps as [|q ps].
  - intros Hin. right. exists p. tauto.
  - intros Hin. apply in_app_or in Hin. destruct Hin as [Hin|Hin].
    + right. exists p. tauto.
    + apply in_app_or in Hin. destruct Hin as [Hin|Hin]; [tauto|].
      destruct (IH Hin) as [Hs | (p' & Hp' & Hc)]; [tauto|].
      right. exists p'. tauto.
Qed.

Lemma not_in_replace a b t : a <> b -> ~ In a (replace a b t).
Proof.
  intros Hne Hin. unfold replace in Hin. apply in_map_iff in Hin.
  destruct Hin as (c & Hc & _). destruct (N.eqb_spec c a); congruence.
Qed.

(** X19.  The text [parse_page] hands to the extractors has no
    non-breaking space left in it: the patterns, written with plain
    spaces, see plain spaces. *)
Theorem page_text_has_no_nbsp nodes : ~ In 160%N (page_text nodes).
Proof.
  unfold page_text. intros Hin. apply in_join in Hin.
  destruct Hin as [Hin | (p & Hp & Hin)].
  - simpl in Hin. destruct Hin as [E|[]]. discriminate E.
  - apply in_map_iff in Hp. destruct Hp as (p0 & <- & _).
    apply in_strip in Hin. revert Hin. apply not_in_replace. discriminate.
Qed.

Lemma lstrip_spaces t : forallb is_space t = true -> lstrip t = [].
Proof.
  induction t as [|c t IH]; simpl; [reflexivity|].
  intros Hall. apply andb_true_iff in Hall. destruct Hall as [-> Hall].
  now apply IH.
Qed.

Lemma strip_blank t :
  forallb is_space t = true -> strip (replace 160%N 32%N t) = [].
Proof.
  intros Hall.
  assert (E : lstrip (replace 160%N 32%N t) = []).
  { apply lstrip_spaces. unfold replace. rewrite forallb_forall in *.
    intros c Hc. apply in_map_iff in Hc. destruct Hc as (c0 & <- & Hc0).
    destruct (N.eqb c0 160); [reflexivity | now apply Hall]. }
  unfold strip. now rewrite E.
Qed.

Lemma join_blank n : join nl (repeat [] (S (S n))) = repeat 10%N (S n).
Proof.
  induction n as [|n IH]; [reflexivity|].
  change (repeat [] (S (S (S n)))) with ([] :: repeat (@nil char) (S (S n))).
  change (join nl ([] :: repeat [] (S (S n))))
    with ([] ++ nl ++ join nl (repeat [] (S (S n)))).
  now rewrite IH.
Qed.

Lemma no_date_in_newlines `{UnicodeDB} n :
  re_search pat_interconnect (repeat 10%N n) = None.
Proof.
  induction n as [|n IH]; [reflexivity|].
  simpl repeat. simpl re_search. exact IH.
Qed.

Lemma page_text_blank nodes :
  Forall (fun p => p <> [] /\ forallb is_space p = true) nodes ->
  page_text nodes = join nl (repeat [] (List.length nodes)).
Proof.
  intros Hall. unfold page_text. f_equal.
  induction Hall as [|p l [Hne Hsp] _ IH]; [reflexivity|].
  destruct p as [|c p]; [congruence|].
  cbn [filter List.map List.length repeat].
  rewrite strip_blank by assumption. now rewrite IH.
Qed.

Section BlankPages.
Context `{UnicodeDB} `{Lxml}.

(** X20.  A page with two or more paragraphs that are all white space:
    each paragraph is emptied, but the newlines that join them make a text
    that is not empty, so the extractors run and [parse_page] raises
    [TypeError] for want of a date.  (With one such paragraph the text is
    empty and nothing runs.) *)
Theorem blank_paragraphs_raise pg title w first second others :
  p_texts pg = first :: second :: others ->
  Forall (fun p => p <> [] /\ forallb is_space p = true) (p_texts pg) ->
  page_text (p_texts pg) = repeat 10%N (S (List.length others))
  /\ fst (parse_page pg title w) = Raise TypeError.
Proof.
  intros Hp Hall.
  assert (E : page_text (p_texts pg) = repeat 10%N (S (List.length others))).
  { rewrite page_text_blank by assumption. rewrite Hp.
    cbn [List.length]. apply join_blank. }
  split; [exact E|].
  rewrite parse_page_eq, E. cbn [repeat].
  change (10%N :: repeat 10%N (List.length others))
    with (repeat 10%N (S (List.length others))).
  rewrite parse_date_eq, (found_none _ _ (no_date_in_newlines _)).
  reflexivity.
Qed.

End BlankPages.

Lemma blank_paragraphs_raise_witness :
  fst (@parse_page ascii_only blank_pages [] (s "A-1") (start [] None))
  = Raise TypeError.
Proof.
  destruct (@blank_paragraphs_raise ascii_only blank_pages [] (s "A-1")
              (start [] None) [32%N] [160%N] [] eq_refl) as [_ Hr].
  - repeat constructor; discriminate.
  - exact Hr.
Defined.
